(** * NewspaperGenerator: article extraction and newspaper layout

    A shallow embedding of [article_fetcher.py], [pdf_generator.py] and the
    fetch loop of [make_newspaper.py], followed by the properties of the
    extraction and classification pipeline.

    Modelling conventions.
    - Python [str] is the type [string] declared below: a sequence of
      Unicode code points, each a number.  A literal between double quotes
      stands for the code points of its text, so [" "] is the one code
      point 32 and ["•"] the one code point 8226.  Whitespace is what
      [str.isspace] says it is, non-breaking and ideographic spaces
      included; [str.lower] is modelled on the ASCII letters, which is exact
      for the one comparison the program makes after it (no other code
      point lowers to a letter of ['references']).
    - A parsed document (a [BeautifulSoup] object) is the forest of its
      top-level nodes.  The parser itself belongs to the library and is not
      modelled: functions that take markup in Python take the tree that
      [BeautifulSoup(markup, 'html.parser')] builds for it.
    - [None] is [option]'s [None]; Python truthiness is written out at each
      test ([Tag] objects are always true, strings are true when non-empty).
    - [requests.get] followed by [raise_for_status] and parsing is a function
      [web] from URLs to [option soup]; [None] stands for a raised exception.
      Progress printing is left out.
    - What the libraries do further is a parameter, the record
      [PdfGenerator.libraries]: the tree parsed from a serialised tree,
      whether [Paragraph] accepts a text, whether [doc.build] returns.  The
      functions of [pdf_generator.py] give the flowables that are
      constructed; the exception of a constructor that raises is accounted
      for where the generator is called. *)

From Stdlib Require Import Bool Arith NArith List Lia.
From Stdlib Require Import DecimalNat.
From Stdlib Require Strings.Byte.
Import ListNotations.
Set Warnings "-register-all".

(** ** Python strings *)

(** A [str]: the empty string, or a code point followed by a string. *)
Inductive string : Set :=
| EmptyString
| String (c : N) (s : string).

(** How a literal is read and shown: its text is UTF-8, one to four bytes
    for each code point. *)
Module Utf8.

Definition continuation (b : Byte.byte) : N := (Strings.Byte.to_N b - 128)%N.

Fixpoint decode (l : list Byte.byte) : option string :=
  match l with
  | [] => Some EmptyString
  | b :: l1 =>
      let n := Strings.Byte.to_N b in
      if (n <? 128)%N then option_map (String n) (decode l1)
      else if (n <? 224)%N then
        match l1 with
        | b1 :: l2 =>
            option_map (String ((n - 192) * 64 + continuation b1)%N) (decode l2)
        | _ => None
        end
      else if (n <? 240)%N then
        match l1 with
        | b1 :: b2 :: l3 =>
            option_map (String ((n - 224) * 4096 + continuation b1 * 64 +
                                continuation b2)%N) (decode l3)
        | _ => None
        end
      else
        match l1 with
        | b1 :: b2 :: b3 :: l4 =>
            option_map (String ((n - 240) * 262144 + continuation b1 * 4096 +
                                continuation b2 * 64 + continuation b3)%N) (decode l4)
        | _ => None
        end
  end.

Definition byte (n : N) : Byte.byte :=
  match Strings.Byte.of_N n with Some b => b | None => Byte.x3f end.

Fixpoint encode (s : string) : list Byte.byte :=
  match s with
  | EmptyString => []
  | String c s' =>
      (if (c <? 128)%N then [byte c]
       else if (c <? 2048)%N then [byte (192 + c / 64)%N; byte (128 + c mod 64)%N]
       else if (c <? 65536)%N
       then [byte (224 + c / 4096)%N; byte (128 + (c / 64) mod 64)%N;
             byte (128 + c mod 64)%N]
       else [byte (240 + c / 262144)%N; byte (128 + (c / 4096) mod 64)%N;
             byte (128 + (c / 64) mod 64)%N; byte (128 + c mod 64)%N]) ++ encode s'
  end.

End Utf8.

Declare Scope string_scope.
Delimit Scope string_scope with string.
Bind Scope string_scope with string.
String Notation string Utf8.decode Utf8.encode : string_scope.
Open Scope string_scope.
Open Scope list_scope.

(** [s1 + s2] *)
Fixpoint append (s1 s2 : string) : string :=
  match s1 with
  | EmptyString => s2
  | String c s1' => String c (append s1' s2)
  end.

Infix "++" := append (right associativity, at level 60) : string_scope.

(** ** Python string operations *)

Module Str.

(** [a == b] *)
Fixpoint eqb (a b : string) : bool :=
  match a, b with
  | EmptyString, EmptyString => true
  | String x a', String y b' => N.eqb x y && eqb a' b'
  | _, _ => false
  end.

(** [len(s)]: the number of code points. *)
Fixpoint length (s : string) : nat :=
  match s with
  | EmptyString => 0
  | String _ s' => S (length s')
  end.

(** [sep.join(l)] *)
Fixpoint concat (sep : string) (l : list string) : string :=
  match l with
  | [] => EmptyString
  | [x] => x
  | x :: xs => (x ++ sep ++ concat sep xs)%string
  end.

(** [c.isspace()]: TAB, LF, VT, FF, CR, FS, GS, RS, US, the space, NEL,
    the no-break space, the Ogham space mark, U+2000 to U+200A, the line
    and paragraph separators, the narrow no-break space, the medium
    mathematical space and the ideographic space.  [str.strip],
    [get_text(strip=True)] and the regular expression [\S] all go by it. *)
Definition isspace (c : N) : bool :=
  ((9 <=? c)%N && (c <=? 13)%N) || ((28 <=? c)%N && (c <=? 32)%N) ||
  (c =? 133)%N || (c =? 160)%N || (c =? 5760)%N ||
  ((8192 <=? c)%N && (c <=? 8202)%N) ||
  (c =? 8232)%N || (c =? 8233)%N || (c =? 8239)%N || (c =? 8287)%N ||
  (c =? 12288)%N.

Fixpoint lstrip (s : string) : string :=
  match s with
  | EmptyString => EmptyString
  | String c s' => if isspace c then lstrip s' else s
  end.

Fixpoint rstrip (s : string) : string :=
  match s with
  | EmptyString => EmptyString
  | String c s' =>
      match rstrip s' with
      | EmptyString => if isspace c then EmptyString else String c EmptyString
      | r => String c r
      end
  end.

(** [s.strip()] *)
Definition strip (s : string) : string := rstrip (lstrip s).

Definition lower_char (c : N) : N :=
  if (65 <=? c)%N && (c <=? 90)%N then (c + 32)%N else c.

(** [s.lower()] *)
Fixpoint lower (s : string) : string :=
  match s with
  | EmptyString => EmptyString
  | String c s' => String (lower_char c) (lower s')
  end.

(** [s.startswith(p)] *)
Fixpoint startswith (p s : string) : bool :=
  match p, s with
  | EmptyString, _ => true
  | String a p', String b s' => N.eqb a b && startswith p' s'
  | String _ _, EmptyString => false
  end.

(** [needle in hay] *)
Fixpoint contains (needle hay : string) : bool :=
  startswith needle hay ||
  match hay with
  | EmptyString => false
  | String _ hay' => contains needle hay'
  end.

(** Python truthiness of a string. *)
Definition nonempty (s : string) : bool :=
  match s with EmptyString => false | String _ _ => true end.

(** [''.join(l)] *)
Definition join (l : list string) : string := concat "" l.

(** The maximal runs of non-whitespace characters of [s], in order
    (the regular expression [\S+] applied by the parser to [class] and
    [rel] attribute values). *)
Fixpoint split_from (cur s : string) : list string :=
  match s with
  | EmptyString => if nonempty cur then [cur] else []
  | String c s' =>
      if isspace c
      then (if nonempty cur then cur :: split_from "" s' else split_from "" s')
      else split_from (cur ++ String c "")%string s'
  end.

Definition split (s : string) : list string := split_from "" s.

(** [str(n)] for a natural number. *)
Fixpoint of_uint (d : Decimal.uint) : string :=
  match d with
  | Decimal.Nil => EmptyString
  | Decimal.D0 d' => String 48 (of_uint d')
  | Decimal.D1 d' => String 49 (of_uint d')
  | Decimal.D2 d' => String 50 (of_uint d')
  | Decimal.D3 d' => String 51 (of_uint d')
  | Decimal.D4 d' => String 52 (of_uint d')
  | Decimal.D5 d' => String 53 (of_uint d')
  | Decimal.D6 d' => String 54 (of_uint d')
  | Decimal.D7 d' => String 55 (of_uint d')
  | Decimal.D8 d' => String 56 (of_uint d')
  | Decimal.D9 d' => String 57 (of_uint d')
  end.

Definition of_nat (n : nat) : string := of_uint (Nat.to_uint n).

(** [x or d] for an optional string [x]. *)
Definition or_else (x : option string) (d : string) : string :=
  match x with
  | Some s => if nonempty s then s else d
  | None => d
  end.

(** Truthiness of an optional string. *)
Definition truthy (x : option string) : bool :=
  match x with Some s => nonempty s | None => false end.

End Str.

(** ** The parse tree of [bs4] *)

Module Bs4.

(** Element attributes: the dictionary [tag.attrs].  The multi-valued
    attributes ([class], [rel]) keep their source text here and are split
    into tokens where they are matched. *)
Definition attrs := list (string * string).

Inductive node : Type :=
| NavigableString (s : string)
| Comment (s : string)
| Tag (name : string) (a : attrs) (contents : list node).

(** A [BeautifulSoup] object: the top-level nodes of the document. *)
Definition soup := list node.

(** [tag.get(key)] *)
Fixpoint get (a : attrs) (key : string) : option string :=
  match a with
  | [] => None
  | (k, v) :: a' => if Str.eqb k key then Some v else get a' key
  end.

Definition name_of (n : node) : option string :=
  match n with Tag name _ _ => Some name | _ => None end.

Definition attrs_of (n : node) : attrs :=
  match n with Tag _ a _ => a | _ => [] end.

Definition contents_of (n : node) : list node :=
  match n with Tag _ _ cs => cs | _ => [] end.

(** [bool(n)]: [Tag.__bool__] is constantly true, while strings and
    comments are [str] subclasses and are true when non-empty. *)
Definition truthy (n : node) : bool :=
  match n with
  | NavigableString s | Comment s => Str.nonempty s
  | Tag _ _ _ => true
  end.

(** [n.name == s]; the test is false on strings, whether the attribute is
    missing or [None]. *)
Definition has_name (s : string) (n : node) : bool :=
  match n with Tag name _ _ => Str.eqb name s | _ => false end.

(** [n.name in names] *)
Definition name_in (names : list string) (n : node) : bool :=
  existsb (fun s => has_name s n) names.

(** [tag.descendants]: every node below [n], in document order. *)
Fixpoint descendants_of (n : node) : list node :=
  match n with
  | Tag _ _ cs => flat_map (fun c => c :: descendants_of c) cs
  | _ => []
  end.

Definition descendants (s : soup) : list node :=
  flat_map (fun c => c :: descendants_of c) s.

(** [find_all] and [find] with the match given as a predicate on nodes. *)
Definition find_all (p : node -> bool) (scope : list node) : list node :=
  filter p scope.

Definition find (p : node -> bool) (scope : list node) : option node :=
  List.find p scope.

(** The text nodes below [n] that [get_text] visits: comments are not
    among the string types it collects. *)
Fixpoint strings_of (n : node) : list string :=
  match n with
  | NavigableString s => [s]
  | Comment _ => []
  | Tag _ _ cs => flat_map strings_of cs
  end.

(** [n.get_text()] *)
Definition get_text (n : node) : string := Str.join (strings_of n).

(** [n.get_text(strip=True)]: each string is stripped, the empty ones are
    skipped and the rest are concatenated. *)
Definition get_text_strip (n : node) : string :=
  Str.join (filter Str.nonempty (map Str.strip (strings_of n))).

(** Matching of a multi-valued attribute: some token matches, or the
    tokens joined by one space match. *)
Definition tokens_match (f : string -> bool) (v : string) : bool :=
  existsb f (Str.split v) || f (Str.concat " " (Str.split v)).

(** [class_=f] (or [rel=f]): an absent attribute never matches the
    predicates used in this program. *)
Definition multi_attr_matches (key : string) (f : string -> bool) (n : node) : bool :=
  match get (attrs_of n) key with
  | Some v => tokens_match f v
  | None => false
  end.

(** [key=f] for a single-valued attribute. *)
Definition attr_matches (key : string) (f : string -> bool) (n : node) : bool :=
  match get (attrs_of n) key with
  | Some v => f v
  | None => false
  end.

(** [key=True]: the attribute is present. *)
Definition has_attr (key : string) (n : node) : bool :=
  match get (attrs_of n) key with Some _ => true | None => false end.

(** The tree left after [for tag in scope.find_all(p): tag.decompose()]:
    every node below the scope that satisfies [p] is gone, at any depth
    ([f] is what happens inside the nodes that stay). *)
Definition prune (p : node -> bool) (f : node -> node) : list node -> list node :=
  fix go (l : list node) : list node :=
    match l with
    | [] => []
    | c :: l' => if p c then go l' else f c :: go l'
    end.

Fixpoint decompose_all_in (p : node -> bool) (n : node) : node :=
  match n with
  | Tag name a cs => Tag name a (prune p (decompose_all_in p) cs)
  | _ => n
  end.

Definition decompose_all (p : node -> bool) (l : list node) : list node :=
  prune p (decompose_all_in p) l.

End Bs4.

(** ** [article_fetcher.py] *)

Module ArticleFetcher.
Import Bs4.

(** The dictionary returned by the fetch functions.  [content_html] is the
    serialised container in Python; the field holds the tree that is
    serialised (the empty string is the empty forest).  What the PDF
    generator gets when it parses the serialisation again is left to
    [PdfGenerator.reparse]. *)
Record Article : Type := {
  title : string;
  author : string;
  date : string;
  content_html : soup;
  url : string
}.

Inductive exn : Type := HTTPError | RecursionError.

(** What a fetch does: the URLs requested, in order, and the value
    returned or the exception raised. *)
Definition fetched : Type := (list string * (exn + Article))%type.

Definition is_substack_url (url : string) : bool :=
  Str.contains "substack.com" url.

(** [soup.find('link', rel='canonical')] and its non-empty [href]. *)
Definition canonical_url (s : soup) : option string :=
  match find (fun n => has_name "link" n &&
                       multi_attr_matches "rel" (Str.eqb "canonical") n)
             (descendants s) with
  | Some canonical_link =>
      match get (attrs_of canonical_link) "href" with
      | Some href => if Str.nonempty href then Some href else None
      | None => None
      end
  | None => None
  end.

Definition substack_title (s : soup) : option string :=
  match find (fun n => has_name "h1" n &&
                       multi_attr_matches "class" (Str.eqb "post-title") n)
             (descendants s) with
  | Some title_tag => Some (get_text_strip title_tag)
  | None =>
      match find (has_name "title") (descendants s) with
      | Some title_tag => Some (get_text_strip title_tag)
      | None => None
      end
  end.

Definition substack_publication (s : soup) : option string :=
  match find (fun n => has_name "h1" n &&
                       multi_attr_matches "class"
                         (fun c => Str.nonempty c && Str.contains "title" c) n)
             (descendants s) with
  | Some pub_heading =>
      match find (fun n => has_name "a" n && attr_matches "href" (Str.eqb "/") n)
                 (descendants_of pub_heading) with
      | Some pub_link =>
          let publication := get_text_strip pub_link in
          if negb (Str.nonempty publication)
          then match find (fun n => has_name "img" n && has_attr "alt" n)
                          (descendants_of pub_link) with
               | Some img =>
                   match get (attrs_of img) "alt" with
                   | Some alt => if Str.nonempty alt then Some alt else Some publication
                   | None => Some publication
                   end
               | None => Some publication
               end
          else Some publication
      | None => None
      end
  | None => None
  end.

(** The loop over [author_links]: the first link with non-empty text. *)
Fixpoint first_link_text (links : list node) : option string :=
  match links with
  | [] => None
  | link :: rest =>
      let text := get_text_strip link in
      if Str.nonempty text then Some text else first_link_text rest
  end.

Definition substack_author (s : soup) : option string :=
  first_link_text
    (find_all (fun n => has_name "a" n &&
                        attr_matches "href"
                          (fun h => Str.nonempty h &&
                                    Str.startswith "https://substack.com/@" h) n)
              (descendants s)).

(** Lines 69-75: the author display string. *)
Definition format_author (author publication : option string) : string :=
  if Str.truthy author && Str.truthy publication &&
     negb (Str.eqb (Str.or_else author "") (Str.or_else publication ""))
  then ("Written by " ++ Str.or_else author "" ++ " from " ++ Str.or_else publication "")%string
  else if Str.truthy author
  then ("Written by " ++ Str.or_else author "")%string
  else "Unknown Author".

(** [time_tag.get('datetime') or time_tag.get_text(strip=True)] *)
Definition extract_date (s : soup) : option string :=
  match find (has_name "time") (descendants s) with
  | Some time_tag =>
      match get (attrs_of time_tag) "datetime" with
      | Some d => if Str.nonempty d then Some d else Some (get_text_strip time_tag)
      | None => Some (get_text_strip time_tag)
      end
  | None => None
  end.

Definition div_class (c : string) (n : node) : bool :=
  has_name "div" n && multi_attr_matches "class" (Str.eqb c) n.

Definition substack_content_div (s : soup) : option node :=
  match find (div_class "available-content") (descendants s) with
  | Some d => Some d
  | None =>
      match find (div_class "body") (descendants s) with
      | Some d => Some d
      | None => find (has_name "article") (descendants s)
      end
  end.

(** Unwanted elements are removed below the container, which is then
    serialised. *)
Definition serialise (unwanted : list string) (content_div : option node) : soup :=
  match content_div with
  | Some d => [decompose_all_in (name_in unwanted) d]
  | None => []
  end.

(** The body of [fetch_substack_article] from line 34 on. *)
Definition extract_substack (url : string) (s : soup) : Article :=
  let title := substack_title s in
  let publication := substack_publication s in
  let author := substack_author s in
  let author := format_author author publication in
  let date := extract_date s in
  let content_html :=
    serialise ["script"; "style"; "button"; "form"] (substack_content_div s) in
  {| title := Str.or_else title "Untitled";
     author := Str.or_else (Some author) "Unknown Author";
     date := Str.or_else date "";
     content_html := content_html;
     url := url |}.

Definition general_title (s : soup) : option string :=
  match find (has_name "h1") (descendants s) with
  | Some h1 => Some (get_text_strip h1)
  | None =>
      match find (has_name "title") (descendants s) with
      | Some title_tag => Some (get_text_strip title_tag)
      | None => None
      end
  end.

Definition general_author (s : soup) : option string :=
  match find (fun n => has_name "meta" n && attr_matches "name" (Str.eqb "author") n)
             (descendants s) with
  | Some author_meta => get (attrs_of author_meta) "content"
  | None => None
  end.

(** The loop over the selectors, left at the first one that finds a tag. *)
Fixpoint first_selector (selectors : list (node -> bool)) (s : soup) : option node :=
  match selectors with
  | [] => None
  | selector :: rest =>
      match find selector (descendants s) with
      | Some content_div => Some content_div
      | None => first_selector rest s
      end
  end.

(** The fallback loop: the first division of strictly greatest text
    length, counted in code points as [len] does. *)
Fixpoint longest_div (all_divs : list node) (max_text_len : nat)
         (content_div : option node) : option node :=
  match all_divs with
  | [] => content_div
  | div :: rest =>
      let text_len := Str.length (get_text div) in
      if (max_text_len <? text_len)%nat
      then longest_div rest text_len (Some div)
      else longest_div rest max_text_len content_div
  end.

Definition general_content_div (s : soup) : option node :=
  match first_selector [has_name "article"; div_class "article";
                        div_class "content"; div_class "post";
                        has_name "main"] s with
  | Some d => Some d
  | None => longest_div (find_all (has_name "div") (descendants s)) 0 None
  end.

(** The body of [fetch_general_article] from line 123 on. *)
Definition extract_general (url : string) (s : soup) : Article :=
  let title := general_title s in
  let author := general_author s in
  let date := extract_date s in
  let content_html :=
    serialise ["script"; "style"; "nav"; "header"; "footer"; "aside"]
              (general_content_div s) in
  {| title := Str.or_else title "Untitled";
     author := Str.or_else author "Unknown Author";
     date := Str.or_else date "";
     content_html := content_html;
     url := url |}.

Section Fetch.

(** The network: the parsed response for a URL, or [None] when the
    request or [raise_for_status] raises. *)
Variable web : string -> option soup.

(** The number of nested calls of [fetch_substack_article] the
    interpreter allows before it raises [RecursionError]. *)
Variable recursion_limit : nat.

(** [fetch_substack_article] with [depth] nested calls left. *)
Fixpoint fetch_substack_article_depth (depth : nat) (url : string) : fetched :=
  match depth with
  | 0 => ([], inl RecursionError)
  | S depth' =>
      match web url with
      | None => ([url], inl HTTPError)
      | Some s =>
          match (if Str.contains "/home/post/" url then canonical_url s else None) with
          | Some canonical =>
              let (requests, r) := fetch_substack_article_depth depth' canonical in
              (url :: requests, r)
          | None => ([url], inr (extract_substack url s))
          end
      end
  end.

Definition fetch_substack_article (url : string) : fetched :=
  fetch_substack_article_depth recursion_limit url.

Definition fetch_general_article (url : string) : fetched :=
  match web url with
  | None => ([url], inl HTTPError)
  | Some s => ([url], inr (extract_general url s))
  end.

Definition fetch_article (url : string) : fetched :=
  if is_substack_url url
  then fetch_substack_article url
  else fetch_general_article url.

End Fetch.

End ArticleFetcher.

(** ** [pdf_generator.py] *)

Module PdfGenerator.
Import Bs4.

(** The paragraph styles of [create_styles], by name. *)
Inductive style : Type :=
| NewspaperTitle | NewspaperDate | ArticleTitle | ArticleMeta
| ColumnBody | ArticleHeading | ArticleSubheading | Quote.

(** The flowables the program builds.  Lengths are in millimetres
    ([0.3*cm] is [3]); a rule is as wide as its frame. *)
Inductive flowable : Type :=
| Paragraph (text : string) (st : style)
| HRFlowable (thickness : nat)
| Spacer (width : nat) (height : nat).

(** What the libraries do with the values of this program and is not
    modelled here.
    - [reparse t] is [BeautifulSoup(str(t), 'html.parser')], the tree the
      generator gets for the tree [t] kept in [content_html]: it is [t]
      again when no two strings of [t] are adjacent, and has such strings
      merged otherwise.
    - [paragraph_ok text] tells whether [Paragraph(text, style)] returns; it
      raises [ValueError] on a text its markup parser cannot read.
    - [build_ok output story] tells whether [doc.build(story)] returns,
      having written the file. *)
Record libraries : Type := {
  reparse : soup -> soup;
  paragraph_ok : string -> bool;
  build_ok : string -> list flowable -> bool
}.

(** What [generate_newspaper_pdf] can raise. *)
Inductive failure : Type :=
| ValueError (text : string)
| BuildError.

Definition headings : list string := ["h1"; "h2"; "h3"].

(** [h_tag.get_text(strip=True).lower() == 'references'] on a heading. *)
Definition is_references (n : node) : bool :=
  name_in headings n &&
  Str.eqb (Str.lower (get_text_strip n)) "references".

Section Html.

(** [hasattr(s, 'decompose')] on a string or comment node: the method
    sits on [Tag] alone in some releases of the library and on every
    node in others. *)
Variable string_has_decompose : bool.

Definition has_decompose (n : node) : bool :=
  match n with
  | Tag _ _ _ => true
  | _ => string_has_decompose
  end.

(** The [while current:] loop of lines 130-137 over the siblings that
    follow the heading; the result is what is left of them. *)
Fixpoint delete_section (siblings : list node) : list node :=
  match siblings with
  | [] => []
  | current :: rest =>
      if negb (truthy current) then siblings
      else if name_in headings current then siblings
      else if has_decompose current then delete_section rest
      else current :: delete_section rest
  end.

(** The first heading in document order that reads "references" is
    looked for among the nodes of [l] and below them ([inside] searches
    below one node); its section and the heading itself are deleted.
    [None] when there is no such heading. *)
Definition remove_first (inside : node -> option node)
  : list node -> option (list node) :=
  fix go (l : list node) : option (list node) :=
    match l with
    | [] => None
    | h_tag :: rest =>
        if is_references h_tag then Some (delete_section rest)
        else match inside h_tag with
             | Some h_tag' => Some (h_tag' :: rest)
             | None => option_map (cons h_tag) (go rest)
             end
    end.

Fixpoint remove_references_in (n : node) : option node :=
  match n with
  | Tag name a cs => option_map (Tag name a) (remove_first remove_references_in cs)
  | _ => None
  end.

(** Lines 127-140. *)
Definition remove_references (s : soup) : soup :=
  match remove_first remove_references_in s with
  | Some s' => s'
  | None => s
  end.

(** The loop over the [li] children of a list (lines 167-172), with the
    blocks emitted so far for that list in [result]. *)
Fixpoint list_items (name : string) (lis : list node) (result : list flowable)
  : list flowable :=
  match lis with
  | [] => result
  | li :: rest =>
      let text := get_text_strip li in
      if Str.nonempty text then
        let bullet := if Str.eqb name "ul" then "•"
                      else (Str.of_nat (List.length result + 1) ++ ".")%string in
        list_items name rest
          (result ++ [Paragraph (bullet ++ " " ++ text)%string ColumnBody])
      else list_items name rest result
  end.

(** One block for a non-empty text, none otherwise. *)
Definition block (st : style) (elem : node) : list flowable :=
  let text := get_text_strip elem in
  if Str.nonempty text then [Paragraph text st] else [].

(** [process_element]: the flowables constructed for one element, when no
    [Paragraph] constructor raises.  String and comment children have no
    element name and contribute nothing. *)
Fixpoint process_element (elem : node) : list flowable :=
  match elem with
  | Tag name _ cs =>
      if Str.eqb name "p" then block ColumnBody elem
      else if existsb (Str.eqb name) ["h1"; "h2"] then block ArticleHeading elem
      else if Str.eqb name "h3" then block ArticleSubheading elem
      else if Str.eqb name "blockquote" then block Quote elem
      else if existsb (Str.eqb name) ["ul"; "ol"]
      then list_items name (find_all (has_name "li") cs) []
      else if Str.eqb name "div" then flat_map process_element cs
      else []
  | _ => []
  end.

(** Lines 118-140: the tree that is classified. *)
Definition preprocess (html_content : soup) : soup :=
  let s := decompose_all (name_in ["script"; "style"; "button"; "form"; "nav"])
                         html_content in
  let s := decompose_all (ArticleFetcher.div_class "subscription-widget-wrap") s in
  remove_references s.

Definition html_to_flowables (html_content : soup) : list flowable :=
  let s := preprocess html_content in
  let body := match find (has_name "body") (descendants s) with
              | Some body => contents_of body
              | None => s
              end in
  flat_map process_element body.

Variable lib : libraries.

(** What the loop of lines 273-290 appends for the article of index [i]. *)
Definition article_flowables (i : nat) (article : ArticleFetcher.Article)
  : list flowable :=
  (if (0 <? i)%nat then [Spacer 1 5; HRFlowable 1; Spacer 1 3] else []) ++
  [Paragraph (ArticleFetcher.title article) ArticleTitle;
   Paragraph (if Str.nonempty (ArticleFetcher.date article)
              then (ArticleFetcher.author article ++ " • " ++
                    ArticleFetcher.date article)%string
              else ArticleFetcher.author article) ArticleMeta] ++
  html_to_flowables (reparse lib (ArticleFetcher.content_html article)).

Fixpoint add_articles (i : nat) (articles : list ArticleFetcher.Article)
         (story : list flowable) : list flowable :=
  match articles with
  | [] => story
  | article :: rest =>
      add_articles (S i) rest (story ++ article_flowables i article)
  end.

(** [generate_newspaper_pdf]: the story handed to [doc.build], for the
    formatted current date [today]. *)
Definition generate_newspaper_pdf (today : string)
           (articles : list ArticleFetcher.Article) : list flowable :=
  add_articles 0 articles
    [Paragraph "THE WEEKLY" NewspaperTitle;
     Paragraph today NewspaperDate;
     HRFlowable 2;
     Spacer 1 3].

(** The first text, in the order of construction, on which [Paragraph]
    raises. *)
Fixpoint first_rejected (story : list flowable) : option string :=
  match story with
  | [] => None
  | Paragraph text _ :: rest =>
      if paragraph_ok lib text then first_rejected rest else Some text
  | _ :: rest => first_rejected rest
  end.

(** [generate_newspaper_pdf(articles, output_path)] as a call: the story is
    built unless a [Paragraph] constructor raises, and then handed to
    [doc.build]. *)
Definition generate_newspaper_pdf_call (today output : string)
           (articles : list ArticleFetcher.Article) : failure + list flowable :=
  let story := generate_newspaper_pdf today articles in
  match first_rejected story with
  | Some text => inl (ValueError text)
  | None => if build_ok lib output story then inr story else inl BuildError
  end.

End Html.

End PdfGenerator.

(** ** [make_newspaper.py] *)

Module MakeNewspaper.
Import ArticleFetcher PdfGenerator.

(** [load_urls], on the lines the file object yields (each with its line
    terminator): the comprehension keeps a line when its stripped text is
    non-empty and the line itself does not start with '#'. *)
Definition load_urls (f : list string) : list string :=
  map Str.strip
      (filter (fun line => Str.nonempty (Str.strip line) &&
                           negb (Str.startswith "#" line)) f).

(** How [main] ends once the URLs are loaded: [sys.exit(code)], the
    document written to [output], or an exception of the generator, which
    nothing catches. *)
Inductive outcome : Type :=
| SystemExit (code : nat)
| Pdf (output : string) (story : list flowable)
| Uncaught (e : failure).

Section Main.

Variable web : string -> option Bs4.soup.
Variable recursion_limit : nat.
Variable string_has_decompose : bool.
Variable lib : libraries.
Variable today : string.

(** Lines 47-56: [except Exception] catches whatever the fetch raises. *)
Fixpoint fetch_loop (urls : list string) (articles : list Article) : list Article :=
  match urls with
  | [] => articles
  | url :: rest =>
      match snd (fetch_article web recursion_limit url) with
      | inr article => fetch_loop rest (articles ++ [article])
      | inl _ => fetch_loop rest articles
      end
  end.

(** [main] from line 46 on: the call of line 66 is outside the [try]. *)
Definition main (urls : list string) (output : string) : outcome :=
  let articles := fetch_loop urls [] in
  match articles with
  | [] => SystemExit 1
  | _ :: _ =>
      match generate_newspaper_pdf_call string_has_decompose lib today output
                                        articles with
      | inr story => Pdf output story
      | inl e => Uncaught e
      end
  end.

(** [main] from line 38 on, with the arguments parsed and the output path
    settled: [urls_file] is the lines of the file, or [None] when the path
    does not exist. *)
Definition main_args (urls_file : option (list string)) (output : string) : outcome :=
  match urls_file with
  | None => SystemExit 1
  | Some f => main (load_urls f) output
  end.

End Main.

End MakeNewspaper.

(** ** Vocabulary of the statements *)

Module Spec.
Import Bs4 ArticleFetcher PdfGenerator.

(** [s] consists of whitespace only. *)
Fixpoint blank (s : string) : bool :=
  match s with
  | EmptyString => true
  | String c s' => Str.isspace c && blank s'
  end.

(** A block of body content: a paragraph in one of the four body styles
    whose text has a character that is not whitespace. *)
Definition content_block (f : flowable) : Prop :=
  match f with
  | Paragraph text st =>
      blank text = false /\
      In st [ColumnBody; ArticleHeading; ArticleSubheading; Quote]
  | _ => False
  end.

(** The article titles of a story, in order. *)
Definition story_titles (story : list flowable) : list string :=
  flat_map (fun f => match f with
                     | Paragraph text ArticleTitle => [text]
                     | _ => []
                     end) story.

(** The texts of the direct [li] children of a list that are emitted. *)
Definition item_texts (cs : list node) : list string :=
  filter Str.nonempty (map get_text_strip (find_all (has_name "li") cs)).

(** The numbered blocks of an ordered list whose first position is [k]. *)
Fixpoint numbered (k : nat) (texts : list string) : list flowable :=
  match texts with
  | [] => []
  | t :: texts' =>
      Paragraph (Str.of_nat k ++ ". " ++ t)%string ColumnBody :: numbered (S k) texts'
  end.


(** The articles of the URLs whose fetch returns, in the order of the
    URLs. *)
Definition successes (web : string -> option soup) (limit : nat)
           (urls : list string) : list Article :=
  flat_map (fun u => match snd (fetch_article web limit u) with
                     | inr a => [a]
                     | inl _ => []
                     end) urls.

(** The link of a page to its canonical URL, as markup
    [<link rel="canonical" href=...>]. *)
Definition canonical_page (href : string) : soup :=
  [Tag "head" [] [Tag "link" [("rel", "canonical"); ("href", href)] []]].

(** An element that holds one string. *)
Definition elem (name text : string) : node :=
  Tag name [] [NavigableString text].

(** A link [<a href=...>text</a>]. *)
Definition anchor (href text : string) : node :=
  Tag "a" [("href", href)] [NavigableString text].

(** Three pages: two reader views, each naming the next page as its
    canonical URL, and the article they lead to. *)
Definition reader1 : string := "https://substack.com/home/post/p-1".
Definition reader2 : string := "https://substack.com/home/post/p-2".
Definition real_url : string := "https://jane.substack.com/p/real".

Definition real_page : soup :=
  [Tag "html" []
     [Tag "head" [] [elem "title" "Real"];
      Tag "body" []
        [Tag "h1" [("class", "publication-title")] [anchor "/" "The Weekly"];
         anchor "https://substack.com/@jane" "Jane";
         Tag "div" [("class", "available-content")] [elem "p" "Hello"]]]].

Definition chain_web (u : string) : option soup :=
  if Str.eqb u reader1 then Some (canonical_page reader2)
  else if Str.eqb u reader2 then Some (canonical_page real_url)
  else if Str.eqb u real_url then Some real_page
  else None.

(** A reader view that names itself as canonical. *)
Definition cycle_web (u : string) : option soup :=
  if Str.eqb u reader1 then Some (canonical_page reader1) else None.

(** A page outside the platform, with nothing the title and author
    heuristics recognise. *)
Definition plain_url : string := "https://example.com/post".
Definition plain_page : soup := [Tag "div" [] [elem "p" "Body"]].

(** A page of the platform with an author link and no masthead. *)
Definition author_only_page : soup :=
  [Tag "body" [] [anchor "https://substack.com/@jane" "Jane"; elem "p" "Hello"]].

(** A page whose body is wrapped in [<body>]. *)
Definition body_page : soup :=
  [Tag "html" [] [Tag "head" [] [elem "title" "T"];
                  Tag "body" [] [elem "h1" "Top"; elem "p" "Text"]]].

Definition plain_web (u : string) : option soup :=
  if Str.eqb u plain_url then Some plain_page else None.

(** A link to an author profile (line 62). *)
Definition profile_link (n : node) : bool :=
  has_name "a" n &&
  attr_matches "href"
    (fun h => Str.nonempty h && Str.startswith "https://substack.com/@" h) n.

(** The text of a paragraph. *)
Definition text_of (f : flowable) : string :=
  match f with Paragraph text _ => text | _ => "" end.

(** A test on nodes that looks at the name and the attributes only. *)
Definition by_tag (q : node -> bool) : Prop :=
  forall name a cs cs', q (Tag name a cs) = q (Tag name a cs').

(** [len(div.get_text())] *)
Definition text_len (d : node) : nat := Str.length (get_text d).

(** The metadata line of an article (lines 283-285). *)
Definition meta_text (a : Article) : string :=
  if Str.nonempty (date a) then (author a ++ " • " ++ date a)%string else author a.

(** The metadata lines of a story, in order. *)
Definition story_metas (story : list flowable) : list string :=
  flat_map (fun f => match f with
                     | Paragraph text ArticleMeta => [text]
                     | _ => []
                     end) story.

(** The flowables of a story in one of the four body styles, in order. *)
Definition body_style (f : flowable) : bool :=
  match f with
  | Paragraph _ (ColumnBody | ArticleHeading | ArticleSubheading | Quote) => true
  | _ => false
  end.

(** The number of horizontal rules of a given thickness in a story. *)
Definition rules (thickness : nat) (story : list flowable) : nat :=
  List.length (filter (fun f => match f with
                                | HRFlowable t => Nat.eqb t thickness
                                | _ => false
                                end) story).

(** A page with a script in its article and a widget beside it. *)
Definition noisy_page : soup :=
  [Tag "article" []
     [elem "p" "Kept";
      Tag "script" [] [NavigableString "track()"];
      Tag "div" [("class", "subscription-widget-wrap")] [elem "p" "Subscribe"];
      Tag "div" [] [Tag "style" [] [NavigableString "p {}"]; elem "p" "Also kept"]]].

(** A page with no known container and two divisions. *)
Definition two_div_page : soup :=
  [Tag "section" []
     [Tag "div" [] [NavigableString "ab"];
      Tag "div" [] [NavigableString "abcd"];
      Tag "div" [] [NavigableString "wxyz"]]].

(** Libraries that give a tree back as it was, accept every text and write
    every file. *)
Definition lenient_lib : libraries :=
  {| reparse := fun t => t;
     paragraph_ok := fun _ => true;
     build_ok := fun _ _ => true |}.

(** Libraries whose [Paragraph] raises on a text with an opening bold tag
    that is never closed. *)
Definition strict_lib : libraries :=
  {| reparse := fun t => t;
     paragraph_ok := fun text =>
       negb (Str.contains "<b>" text && negb (Str.contains "</b>" text));
     build_ok := fun _ _ => true |}.

(** A page whose heading reads as an opening bold tag that is never
    closed (the markup [<h1>&lt;b&gt;Unclosed</h1>]). *)
Definition bold_url : string := "https://example.com/bold".
Definition bold_page : soup :=
  [Tag "article" [] [elem "h1" "<b>Unclosed"; elem "p" "Text"]].

Definition bold_web (u : string) : option soup :=
  if Str.eqb u plain_url then Some plain_page
  else if Str.eqb u bold_url then Some bold_page
  else None.

(** A site outside the platform whose URL has "substack.com" in its path. *)
Definition about_web (u : string) : option soup :=
  if Str.eqb u "https://example.com/about-substack.com" then Some plain_page else None.

(** A reader view whose canonical URL cannot be fetched. *)
Definition dead_link_web (u : string) : option soup :=
  if Str.eqb u reader1 then Some (canonical_page real_url) else None.

End Spec.

(** ** Facts about the string operations *)

Section StringFacts.
Import Spec.

Lemma string_eqb_eq (a b : string) : Str.eqb a b = true <-> a = b.
Proof.
  revert b. induction a as [|x a IH]; intros [|y b]; simpl;
    try (split; [discriminate | discriminate]); [tauto|].
  rewrite andb_true_iff, N.eqb_eq, IH. split.
  - intros [-> ->]. reflexivity.
  - intros H. injection H as -> ->. auto.
Qed.

Lemma string_eqb_refl (a : string) : Str.eqb a a = true.
Proof. apply string_eqb_eq. reflexivity. Qed.

Lemma string_eqb_neq (a b : string) : Str.eqb a b = false <-> a <> b.
Proof.
  destruct (Str.eqb a b) eqn:E.
  - apply string_eqb_eq in E. split; [discriminate | intros H; contradiction].
  - split; [|reflexivity]. intros _ H. apply string_eqb_eq in H. congruence.
Qed.

Lemma nonempty_iff (s : string) : Str.nonempty s = true <-> s <> "".
Proof.
  destruct s; simpl; split; intros H; try discriminate; try reflexivity.
  contradiction H; reflexivity.
Qed.

Lemma nonempty_false_iff (s : string) : Str.nonempty s = false <-> s = "".
Proof.
  destruct s; simpl; split; intros H; try discriminate; reflexivity.
Qed.

Lemma startswith_iff (p s : string) :
  Str.startswith p s = true <-> exists post, s = (p ++ post)%string.
Proof.
  revert s; induction p as [|a p IH]; intros s; simpl.
  - split; [intros _; exists s; reflexivity | reflexivity].
  - destruct s as [|b s].
    + split; [discriminate | intros [post H]; discriminate].
    + rewrite andb_true_iff, N.eqb_eq, IH. split.
      * intros [-> [post ->]]. exists post. reflexivity.
      * intros [post H]. injection H as -> ->. split; eauto.
Qed.

Lemma contains_iff (needle hay : string) :
  Str.contains needle hay = true <->
  exists pre post, hay = (pre ++ needle ++ post)%string.
Proof.
  induction hay as [|c h IH]; simpl.
  - rewrite orb_false_r, startswith_iff. split.
    + intros [post H]. exists "", post. exact H.
    + intros [pre [post H]]. destruct pre; simpl in H.
      * exists post; exact H.
      * discriminate.
  - rewrite orb_true_iff, startswith_iff, IH. split.
    + intros [[post H] | [pre [post H]]].
      * exists "", post. exact H.
      * exists (String c pre), post. simpl. rewrite H. reflexivity.
    + intros [pre [post H]]. destruct pre as [|c' pre]; simpl in H.
      * left. exists post. exact H.
      * right. injection H as _ H. exists pre, post; exact H.
Qed.

Lemma blank_app (a b : string) : blank (a ++ b) = blank a && blank b.
Proof.
  induction a as [|c a IH]; simpl; [reflexivity|].
  rewrite IH, andb_assoc. reflexivity.
Qed.

Lemma blank_false_nonempty (s : string) : blank s = false -> s <> "".
Proof. intros H ->. discriminate. Qed.

Lemma lstrip_empty_iff (s : string) : Str.lstrip s = "" <-> blank s = true.
Proof.
  induction s as [|c s IH]; simpl; [tauto|].
  destruct (Str.isspace c); simpl; [exact IH|].
  split; discriminate.
Qed.

Lemma blank_lstrip (s : string) : blank (Str.lstrip s) = blank s.
Proof.
  induction s as [|c s IH]; simpl; [reflexivity|].
  destruct (Str.isspace c) eqn:E; simpl; [exact IH|].
  rewrite E. reflexivity.
Qed.

Lemma rstrip_empty_iff (s : string) : Str.rstrip s = "" <-> blank s = true.
Proof.
  induction s as [|c s IH]; simpl; [tauto|].
  destruct (Str.rstrip s) as [|a s0] eqn:E.
  - assert (Hb : blank s = true) by (apply IH; reflexivity).
    rewrite Hb, andb_true_r.
    destruct (Str.isspace c); split; try discriminate; reflexivity.
  - assert (Hb : blank s = false).
    { destruct (blank s) eqn:Eb; [|reflexivity].
      assert (H : String a s0 = "") by (apply IH; reflexivity). discriminate. }
    rewrite Hb, andb_false_r. split; discriminate.
Qed.

Lemma blank_rstrip (s : string) : blank (Str.rstrip s) = blank s.
Proof.
  induction s as [|c s IH]; simpl; [reflexivity|].
  destruct (Str.rstrip s) eqn:E.
  - simpl in IH. rewrite <- IH, andb_true_r.
    destruct (Str.isspace c) eqn:Ec; simpl; [reflexivity|].
    rewrite Ec. reflexivity.
  - rewrite <- IH. reflexivity.
Qed.

Lemma strip_empty_iff (s : string) : Str.strip s = "" <-> blank s = true.
Proof.
  unfold Str.strip. rewrite rstrip_empty_iff, blank_lstrip. tauto.
Qed.

Lemma blank_strip (s : string) : blank (Str.strip s) = blank s.
Proof. unfold Str.strip. rewrite blank_rstrip, blank_lstrip. reflexivity. Qed.

Lemma strip_nonempty_of_not_blank (s : string) :
  blank s = false -> Str.strip s <> "".
Proof.
  intros H E. apply strip_empty_iff in E. congruence.
Qed.

Lemma append_empty_r (s : string) : (s ++ "")%string = s.
Proof. induction s as [|c s IH]; simpl; [reflexivity | rewrite IH; reflexivity]. Qed.

Lemma string_app_assoc (a b c : string) :
  (a ++ (b ++ c))%string = ((a ++ b) ++ c)%string.
Proof. induction a as [|x a IH]; simpl; [reflexivity | rewrite IH; reflexivity]. Qed.

Lemma join_cons (x : string) (l : list string) :
  Str.join (x :: l) = (x ++ Str.join l)%string.
Proof.
  unfold Str.join. destruct l as [|y l]; simpl.
  - rewrite append_empty_r. reflexivity.
  - reflexivity.
Qed.

Lemma blank_join (l : list string) :
  blank (Str.join l) = forallb blank l.
Proof.
  induction l as [|x l IH]; [reflexivity|].
  rewrite join_cons, blank_app, IH. reflexivity.
Qed.

Lemma join_empty_iff (l : list string) :
  Str.join l = "" <-> Forall (fun s => s = "") l.
Proof.
  induction l as [|x l IH]; [split; constructor|].
  rewrite join_cons. split.
  - intros H. destruct x; [|discriminate]. constructor; [reflexivity|].
    apply IH. exact H.
  - intros H. inversion H as [|? ? Hx Hl]; subst. apply IH in Hl.
    simpl. exact Hl.
Qed.

End StringFacts.

(** ** Facts about the parse tree *)

Section TreeFacts.
Import Bs4 Spec.

(** Induction on a tree, with the property available on the children. *)
Lemma node_forall_ind (P : node -> Prop) :
  (forall s, P (NavigableString s)) ->
  (forall s, P (Comment s)) ->
  (forall name a cs, Forall P cs -> P (Tag name a cs)) ->
  forall n, P n.
Proof.
  intros Hs Hc Ht. fix IH 1. intros [s|s|name a cs].
  - apply Hs.
  - apply Hc.
  - apply Ht. induction cs as [|c cs IHcs]; constructor; [apply IH | exact IHcs].
Qed.

Lemma Forall_flat_map {A B : Type} (P : B -> Prop) (f : A -> list B) (l : list A) :
  (forall x, In x l -> Forall P (f x)) -> Forall P (flat_map f l).
Proof.
  induction l as [|x l IH]; intros H; simpl; [constructor|].
  apply Forall_app. split; [apply H; left; reflexivity|].
  apply IH. intros y Hy. apply H. right. exact Hy.
Qed.

Lemma stripped_pieces_blank (l : list string) :
  blank (Str.join (filter Str.nonempty (map Str.strip l))) = forallb blank l.
Proof.
  induction l as [|x l IH]; [reflexivity|]. simpl.
  destruct (Str.nonempty (Str.strip x)) eqn:E.
  - rewrite join_cons, blank_app, blank_strip, IH. reflexivity.
  - apply nonempty_false_iff, strip_empty_iff in E. rewrite E. exact IH.
Qed.

Lemma stripped_pieces_empty_iff (l : list string) :
  Str.join (filter Str.nonempty (map Str.strip l)) = "" <-> forallb blank l = true.
Proof.
  induction l as [|x l IH]; simpl; [split; reflexivity|].
  destruct (Str.nonempty (Str.strip x)) eqn:E.
  - rewrite join_cons. split.
    + intros H. destruct (Str.strip x); discriminate.
    + intros H. apply andb_true_iff in H as [Hx _].
      apply strip_empty_iff in Hx. rewrite Hx in E. discriminate.
  - apply nonempty_false_iff, strip_empty_iff in E. rewrite E. exact IH.
Qed.

(** The text of [get_text(strip=True)] is empty exactly when every string
    below the node is whitespace, ... *)
Lemma get_text_strip_empty_iff (n : node) :
  get_text_strip n = "" <-> forallb blank (strings_of n) = true.
Proof. apply stripped_pieces_empty_iff. Qed.

(** ... that is, when the stripped flattened text is empty. *)
Lemma get_text_strip_empty_strip (n : node) :
  get_text_strip n = "" <-> Str.strip (get_text n) = "".
Proof.
  rewrite get_text_strip_empty_iff, strip_empty_iff.
  unfold get_text. rewrite blank_join. tauto.
Qed.

(** A non-empty text has a character that is not whitespace. *)
Lemma get_text_strip_not_blank (n : node) :
  Str.nonempty (get_text_strip n) = true -> blank (get_text_strip n) = false.
Proof.
  intros H. apply nonempty_iff in H.
  unfold get_text_strip in *. rewrite stripped_pieces_blank.
  destruct (forallb blank (strings_of n)) eqn:E; [|reflexivity].
  apply stripped_pieces_empty_iff in E. contradiction.
Qed.

End TreeFacts.

(** ** Extraction: [article_fetcher.py] *)

Section Extraction.
Import Bs4 ArticleFetcher Spec.

Lemma or_else_nonempty (x : option string) (d : string) :
  d <> "" -> Str.or_else x d <> "".
Proof.
  intros Hd. unfold Str.or_else. destruct x as [s|]; [|exact Hd].
  destruct (Str.nonempty s) eqn:E; [apply nonempty_iff; exact E | exact Hd].
Qed.

Lemma or_else_default (x : option string) (d : string) :
  x = None \/ x = Some "" -> Str.or_else x d = d.
Proof. intros [-> | ->]; reflexivity. Qed.

Lemma first_link_text_nonempty (links : list node) (t : string) :
  first_link_text links = Some t -> Str.nonempty t = true.
Proof.
  induction links as [|link rest IH]; simpl; [discriminate|].
  destruct (Str.nonempty (get_text_strip link)) eqn:E; [|exact IH].
  intros H. injection H as <-. exact E.
Qed.

(** A reader view with a canonical link costs one nested call and one
    request, whatever the canonical URL is. *)
Lemma fetch_substack_redirect (web : string -> option soup) (depth : nat)
      (url canonical : string) (s : soup) :
  Str.contains "/home/post/" url = true ->
  web url = Some s ->
  canonical_url s = Some canonical ->
  fetch_substack_article_depth web (S depth) url =
    (url :: fst (fetch_substack_article_depth web depth canonical),
     snd (fetch_substack_article_depth web depth canonical)).
Proof.
  intros Hr Hw Hc. simpl. rewrite Hw, Hr, Hc.
  destruct (fetch_substack_article_depth web depth canonical). reflexivity.
Qed.

(** Without a redirect the page fetched is the page extracted. *)
Lemma fetch_substack_direct (web : string -> option soup) (depth : nat)
      (url : string) :
  (forall s, web url = Some s ->
             Str.contains "/home/post/" url = true -> canonical_url s = None) ->
  fetch_substack_article_depth web (S depth) url =
    ([url], match web url with
            | Some s => inr (extract_substack url s)
            | None => inl HTTPError
            end).
Proof.
  intros H. simpl. destruct (web url) as [s|] eqn:Hw; [|reflexivity].
  destruct (Str.contains "/home/post/" url) eqn:Hr; [|reflexivity].
  rewrite (H s eq_refl eq_refl). reflexivity.
Qed.

(** Whatever a site-specific fetch returns was extracted from some page. *)
Lemma fetch_substack_returns (web : string -> option soup) (depth : nat)
      (url : string) (a : Article) :
  snd (fetch_substack_article_depth web depth url) = inr a ->
  exists u s, a = extract_substack u s.
Proof.
  revert url. induction depth as [|depth IH]; intros url; simpl; [discriminate|].
  destruct (web url) as [s|]; [|discriminate].
  destruct (if Str.contains "/home/post/" url then canonical_url s else None)
    as [canonical|].
  - specialize (IH canonical).
    destruct (fetch_substack_article_depth web depth canonical) as [l r].
    exact IH.
  - simpl. intros H. injection H as <-. eauto.
Qed.

(** C10.  The dispatch takes the site-specific strategy exactly when
    "substack.com" occurs somewhere in the URL, host or not, and the
    generic strategy otherwise; "https://example.com/about-substack.com"
    goes to the site-specific strategy. *)
Theorem fetch_article_dispatch (web : string -> option soup) (limit : nat)
        (url : string) :
  (is_substack_url url = true <->
   exists pre post, url = (pre ++ "substack.com" ++ post)%string) /\
  ((exists pre post, url = (pre ++ "substack.com" ++ post)%string) ->
   fetch_article web limit url = fetch_substack_article web limit url) /\
  (~ (exists pre post, url = (pre ++ "substack.com" ++ post)%string) ->
   fetch_article web limit url = fetch_general_article web url) /\
  fetch_article web limit "https://example.com/about-substack.com" =
    fetch_substack_article web limit "https://example.com/about-substack.com".
Proof.
  assert (Hiff : is_substack_url url = true <->
                 exists pre post, url = (pre ++ "substack.com" ++ post)%string)
    by apply contains_iff.
  repeat split.
  - apply Hiff.
  - apply Hiff.
  - intros H. apply Hiff in H. unfold fetch_article. rewrite H. reflexivity.
  - intros H. unfold fetch_article.
    destruct (is_substack_url url) eqn:E; [|reflexivity].
    contradiction H. apply Hiff. reflexivity.
Qed.

Lemma fetch_article_dispatch_witness :
  fetch_article about_web 3 "https://example.com/about-substack.com" =
    fetch_substack_article about_web 3 "https://example.com/about-substack.com".
Proof.
  apply (proj1 (proj2 (fetch_article_dispatch about_web 3
                         "https://example.com/about-substack.com"))).
  exists "https://example.com/about-", "". reflexivity.
Defined.

(** C1 (as amended).  A reader-view page with a canonical link restarts
    the extraction at the canonical URL, at every level of the recursion;
    when the canonical target is not itself a reader view with a canonical
    link, that is one hop: two requests, and the article of the canonical
    page (or its fetch error). *)
Theorem reader_view_single_hop (web : string -> option soup)
        (url canonical : string) (s : soup) :
  Str.contains "/home/post/" url = true ->
  web url = Some s ->
  canonical_url s = Some canonical ->
  (forall depth,
      fetch_substack_article_depth web (S depth) url =
        (url :: fst (fetch_substack_article_depth web depth canonical),
         snd (fetch_substack_article_depth web depth canonical))) /\
  (forall limit,
      2 <= limit ->
      (forall s', web canonical = Some s' ->
                  Str.contains "/home/post/" canonical = true ->
                  canonical_url s' = None) ->
      fetch_substack_article web limit url =
        ([url; canonical],
         match web canonical with
         | Some s' => inr (extract_substack canonical s')
         | None => inl HTTPError
         end)).
Proof.
  intros Hr Hw Hc. split.
  - intros depth. apply fetch_substack_redirect with (s := s); assumption.
  - intros limit Hl Hstop. unfold fetch_substack_article.
    destruct limit as [|[|depth]]; [lia | lia |].
    rewrite (fetch_substack_redirect web (S depth) url canonical s Hr Hw Hc).
    rewrite (fetch_substack_direct web depth canonical Hstop). reflexivity.
Qed.

Lemma reader_view_single_hop_witness :
  fetch_substack_article chain_web 1000 reader2 =
    ([reader2; real_url], inr (extract_substack real_url real_page)).
Proof.
  apply (proj2 (reader_view_single_hop chain_web reader2 real_url
                  (canonical_page real_url) eq_refl eq_refl eq_refl) 1000).
  - lia.
  - intros s' _ H. discriminate H.
Defined.

(** C1 (as stated) fails: a reader view whose canonical URL is again a
    reader view is followed for two hops, and a reader view that is its
    own canonical URL is requested until the recursion limit is hit. *)
Lemma canonical_chain_two_hops :
  Str.contains "/home/post/" reader1 = true /\
  fetch_substack_article chain_web 1000 reader1 =
    ([reader1; reader2; real_url], inr (extract_substack real_url real_page)) /\
  fetch_substack_article cycle_web 5 reader1 =
    ([reader1; reader1; reader1; reader1; reader1], inl RecursionError) /\
  ~ (forall web limit url,
        Str.contains "/home/post/" url = true ->
        List.length (fst (fetch_substack_article web limit url)) <= 2).
Proof.
  split; [reflexivity|]. split; [reflexivity|]. split; [reflexivity|].
  intros H. specialize (H chain_web 1000 reader1 eq_refl).
  vm_compute in H. lia.
Qed.

(** A reader view that is its own canonical URL exhausts any recursion
    limit: every nested call makes one more request. *)
Lemma canonical_cycle_exhausts (limit : nat) :
  fetch_substack_article cycle_web limit reader1 =
    (repeat reader1 limit, inl RecursionError).
Proof.
  unfold fetch_substack_article.
  induction limit as [|limit IH]; [reflexivity|].
  rewrite (fetch_substack_redirect cycle_web limit reader1 reader1
             (canonical_page reader1) eq_refl eq_refl eq_refl).
  rewrite IH. reflexivity.
Qed.

Lemma format_author_resolved (a : string) (p : option string) :
  Str.nonempty a = true ->
  format_author (Some a) p =
    match p with
    | Some pn =>
        if Str.nonempty pn && negb (Str.eqb a pn)
        then ("Written by " ++ a ++ " from " ++ pn)%string
        else ("Written by " ++ a)%string
    | None => ("Written by " ++ a)%string
    end.
Proof.
  intros Ha. unfold format_author, Str.truthy, Str.or_else. rewrite Ha.
  destruct p as [pn|]; [|reflexivity].
  destruct (Str.nonempty pn); [|reflexivity].
  destruct (Str.eqb a pn); reflexivity.
Qed.

Lemma written_by_nonempty (t : string) :
  Str.or_else (Some ("Written by " ++ t)%string) "Unknown Author" =
    ("Written by " ++ t)%string.
Proof. reflexivity. Qed.

(** C2.  The author display string of the site-specific strategy: with an
    author and a different, non-empty publication it is "Written by
    {author} from {publication}"; with an author and no publication, an
    empty one or one equal to the author it is "Written by {author}";
    without an author it is "Unknown Author".  For author and publication
    both "Jane" it is "Written by Jane". *)
Theorem author_display_string (url : string) (s : soup) :
  (forall a p,
      substack_author s = Some a -> substack_publication s = Some p ->
      p <> "" -> a <> p ->
      author (extract_substack url s) = ("Written by " ++ a ++ " from " ++ p)%string) /\
  (forall a,
      substack_author s = Some a ->
      substack_publication s = None \/ substack_publication s = Some "" \/
      substack_publication s = Some a ->
      author (extract_substack url s) = ("Written by " ++ a)%string) /\
  (substack_author s = None ->
   author (extract_substack url s) = "Unknown Author") /\
  format_author (Some "Jane") (Some "Jane") = "Written by Jane".
Proof.
  unfold extract_substack. cbn [author].
  repeat split.
  - intros a p Ha Hp Hpne Hneq. rewrite Ha, Hp.
    unfold substack_author in Ha. apply first_link_text_nonempty in Ha.
    apply nonempty_iff in Hpne. apply string_eqb_neq in Hneq.
    rewrite (format_author_resolved a (Some p) Ha), Hpne, Hneq.
    apply written_by_nonempty.
  - intros a Ha Hp. rewrite Ha.
    unfold substack_author in Ha. apply first_link_text_nonempty in Ha.
    rewrite (format_author_resolved a _ Ha).
    destruct Hp as [-> | [-> | ->]].
    + apply written_by_nonempty.
    + apply written_by_nonempty.
    + rewrite string_eqb_refl, andb_false_r. apply written_by_nonempty.
  - intros Ha. rewrite Ha. reflexivity.
Qed.

Lemma author_display_string_witness :
  author (extract_substack real_url real_page) = "Written by Jane from The Weekly" /\
  author (extract_substack real_url author_only_page) = "Written by Jane" /\
  author (extract_substack plain_url plain_page) = "Unknown Author".
Proof.
  split; [|split].
  - apply (proj1 (author_display_string real_url real_page) "Jane" "The Weekly").
    + reflexivity.
    + reflexivity.
    + discriminate.
    + discriminate.
  - apply (proj1 (proj2 (author_display_string real_url author_only_page)) "Jane").
    + reflexivity.
    + left. reflexivity.
  - apply (proj1 (proj2 (proj2 (author_display_string plain_url plain_page)))).
    reflexivity.
Defined.

(** C4.  Every article a fetch returns, by either strategy, has a
    non-empty title and a non-empty author; the placeholders "Untitled"
    and "Unknown Author" stand in when the title or author heuristics find
    nothing or an empty string. *)
Theorem article_title_author_nonempty (web : string -> option soup)
        (limit : nat) (url : string) :
  (forall a, snd (fetch_article web limit url) = inr a ->
             title a <> "" /\ author a <> "") /\
  (forall s, substack_title s = None \/ substack_title s = Some "" ->
             title (extract_substack url s) = "Untitled") /\
  (forall s, substack_author s = None ->
             author (extract_substack url s) = "Unknown Author") /\
  (forall s, general_title s = None \/ general_title s = Some "" ->
             title (extract_general url s) = "Untitled") /\
  (forall s, general_author s = None \/ general_author s = Some "" ->
             author (extract_general url s) = "Unknown Author").
Proof.
  split; [|repeat split].
  - intros a. unfold fetch_article.
    destruct (is_substack_url url).
    + intros H. apply fetch_substack_returns in H as [u [s ->]].
      split; apply or_else_nonempty; discriminate.
    + unfold fetch_general_article. destruct (web url) as [s|]; [|discriminate].
      simpl. intros H. injection H as <-.
      split; apply or_else_nonempty; discriminate.
  - intros s H. apply or_else_default. exact H.
  - intros s H. unfold extract_substack. simpl. rewrite H. reflexivity.
  - intros s H. apply or_else_default. exact H.
  - intros s H. apply or_else_default. exact H.
Qed.

Lemma article_title_author_nonempty_witness :
  (title (extract_general plain_url plain_page) <> "" /\
   author (extract_general plain_url plain_page) <> "") /\
  title (extract_substack plain_url plain_page) = "Untitled" /\
  author (extract_substack plain_url plain_page) = "Unknown Author" /\
  title (extract_general plain_url plain_page) = "Untitled" /\
  author (extract_general plain_url plain_page) = "Unknown Author".
Proof.
  pose (T := article_title_author_nonempty plain_web 3 plain_url).
  split; [|split; [|split; [|split]]].
  - apply (proj1 T). reflexivity.
  - apply (proj1 (proj2 T)). left. reflexivity.
  - apply (proj1 (proj2 (proj2 T))). reflexivity.
  - apply (proj1 (proj2 (proj2 (proj2 T)))). left. reflexivity.
  - apply (proj2 (proj2 (proj2 (proj2 T)))). left. reflexivity.
Defined.


End Extraction.

(** ** Classification: [html_to_flowables] *)

Section Classification.
Import Bs4 PdfGenerator Spec.

Lemma block_content (st : style) (e : node) :
  In st [ColumnBody; ArticleHeading; ArticleSubheading; Quote] ->
  Forall content_block (block st e).
Proof.
  intros Hst. unfold block.
  destruct (Str.nonempty (get_text_strip e)) eqn:E; constructor; [|constructor].
  split; [apply get_text_strip_not_blank; exact E | exact Hst].
Qed.

Lemma block_empty (st : style) (e : node) :
  Str.strip (get_text e) = "" -> block st e = [].
Proof.
  intros H. apply get_text_strip_empty_strip in H. unfold block. rewrite H.
  reflexivity.
Qed.

Lemma list_items_content (name : string) (lis : list node) (result : list flowable) :
  Forall content_block result -> Forall content_block (list_items name lis result).
Proof.
  revert result. induction lis as [|li rest IH]; intros result Hr; simpl; [exact Hr|].
  destruct (Str.nonempty (get_text_strip li)) eqn:E; [|apply IH; exact Hr].
  apply IH. apply Forall_app. split; [exact Hr|]. constructor; [|constructor].
  split; [|simpl; tauto].
  rewrite blank_app. cbn [blank].
  rewrite (get_text_strip_not_blank li E), !andb_false_r. reflexivity.
Qed.

(** The loop of an ordered list numbers what it emits from the length of
    what it has emitted. *)
Lemma list_items_numbered (name : string) (lis : list node) (result : list flowable) :
  Str.eqb name "ul" = false ->
  list_items name lis result =
    result ++ numbered (List.length result + 1)
                       (filter Str.nonempty (map get_text_strip lis)).
Proof.
  intros Hn. revert result.
  induction lis as [|li rest IH]; intros result; simpl.
  - rewrite app_nil_r. reflexivity.
  - destruct (Str.nonempty (get_text_strip li)) eqn:E; [|apply IH].
    rewrite IH, Hn, <- app_assoc, length_app. simpl.
    replace (List.length result + 1 + 1) with (S (List.length result + 1)) by lia.
    rewrite <- string_app_assoc. reflexivity.
Qed.

Lemma list_items_bulleted (lis : list node) (result : list flowable) :
  list_items "ul" lis result =
    result ++ map (fun t => Paragraph ("• " ++ t)%string ColumnBody)
                  (filter Str.nonempty (map get_text_strip lis)).
Proof.
  revert result. induction lis as [|li rest IH]; intros result; simpl.
  - rewrite app_nil_r. reflexivity.
  - destruct (Str.nonempty (get_text_strip li)) eqn:E; [|apply IH].
    rewrite IH, <- app_assoc. reflexivity.
Qed.

Lemma numbered_nth (texts : list string) (k i : nat) (t : string) :
  nth_error texts i = Some t ->
  nth_error (numbered k texts) i =
    Some (Paragraph (Str.of_nat (k + i) ++ ". " ++ t)%string ColumnBody).
Proof.
  revert k i. induction texts as [|x texts IH]; intros k i; destruct i; simpl;
    try discriminate.
  - intros H. injection H as ->. rewrite Nat.add_0_r. reflexivity.
  - intros H. rewrite (IH (S k) i H).
    replace (S k + i) with (k + S i) by lia. reflexivity.
Qed.

Lemma numbered_length (texts : list string) (k : nat) :
  List.length (numbered k texts) = List.length texts.
Proof.
  revert k. induction texts as [|x texts IH]; intros k; simpl; [reflexivity|].
  rewrite IH. reflexivity.
Qed.

(** Every block of an element is a body paragraph with visible text. *)
Lemma process_element_content (e : node) : Forall content_block (process_element e).
Proof.
  induction e as [s|s|name a cs IH] using node_forall_ind;
    [constructor | constructor |].
  cbn [process_element].
  destruct (Str.eqb name "p"); [apply block_content; simpl; tauto|].
  destruct (existsb (Str.eqb name) ["h1"; "h2"]); [apply block_content; simpl; tauto|].
  destruct (Str.eqb name "h3"); [apply block_content; simpl; tauto|].
  destruct (Str.eqb name "blockquote"); [apply block_content; simpl; tauto|].
  destruct (existsb (Str.eqb name) ["ul"; "ol"]); [apply list_items_content; constructor|].
  destruct (Str.eqb name "div"); [|constructor].
  apply Forall_flat_map. apply Forall_forall. exact IH.
Qed.

Lemma html_to_flowables_content (b : bool) (html : soup) :
  Forall content_block (html_to_flowables b html).
Proof.
  unfold html_to_flowables. apply Forall_flat_map.
  intros x _. apply process_element_content.
Qed.

(** *** The References section *)


Lemma remove_first_none (b : bool) (l : list node) :
  Forall (fun c => Forall (fun d => is_references d = false) (descendants_of c) ->
                   remove_references_in b c = None) l ->
  Forall (fun d => is_references d = false) (descendants l) ->
  remove_first b (remove_references_in b) l = None.
Proof.
  induction 1 as [|c l Hc _ IH]; intros Hd; simpl; [reflexivity|].
  unfold descendants in Hd. simpl in Hd.
  inversion Hd as [|? ? Hh Hrest]; subst.
  apply Forall_app in Hrest as [Hin Hl].
  rewrite Hh, (Hc Hin), (IH Hl). reflexivity.
Qed.

Lemma remove_references_in_none (b : bool) (n : node) :
  Forall (fun d => is_references d = false) (descendants_of n) ->
  remove_references_in b n = None.
Proof.
  induction n as [s|s|name a cs IH] using node_forall_ind;
    [reflexivity | reflexivity |].
  intros Hd. cbn [remove_references_in].
  rewrite (remove_first_none b cs IH Hd). reflexivity.
Qed.

(** Conversely, the search only comes back empty-handed when no heading of
    the document reads "references": it looks at the same nodes as
    [find_all] does. *)
Lemma remove_first_found (b : bool) (l : list node) :
  Forall (fun c => remove_references_in b c = None ->
                   Forall (fun d => is_references d = false) (descendants_of c)) l ->
  remove_first b (remove_references_in b) l = None ->
  Forall (fun d => is_references d = false) (descendants l).
Proof.
  induction 1 as [|c l Hc _ IH]; intros Hn; [constructor|].
  simpl in Hn. unfold descendants. simpl.
  destruct (is_references c) eqn:Ec; [discriminate|].
  destruct (remove_references_in b c) eqn:Ei; [discriminate|].
  destruct (remove_first b (remove_references_in b) l) eqn:El; [discriminate|].
  constructor; [exact Ec|]. apply Forall_app. split; [apply Hc | apply IH]; reflexivity.
Qed.

Lemma remove_references_in_found (b : bool) (n : node) :
  remove_references_in b n = None ->
  Forall (fun d => is_references d = false) (descendants_of n).
Proof.
  induction n as [s|s|name a cs IH] using node_forall_ind;
    [constructor | constructor |].
  cbn [remove_references_in]. intros Hn.
  apply (remove_first_found b cs IH).
  destruct (remove_first b (remove_references_in b) cs); [discriminate | reflexivity].
Qed.

Lemma remove_references_unchanged_iff (b : bool) (s : soup) :
  remove_first b (remove_references_in b) s = None <->
  find_all is_references (descendants s) = [].
Proof.
  split.
  - intros H. apply (remove_first_found b s) in H.
    + unfold find_all. induction H as [|d l Hd _ IH]; [reflexivity|].
      simpl. rewrite Hd. exact IH.
    + apply Forall_forall. intros c _. apply remove_references_in_found.
  - intros H. apply remove_first_none.
    + apply Forall_forall. intros c _. apply remove_references_in_none.
    + unfold find_all in H. induction (descendants s) as [|d l IH]; [constructor|].
      simpl in H. destruct (is_references d) eqn:Ed; [discriminate|].
      constructor; [exact Ed | apply IH; exact H].
Qed.






(** *** Blocks *)

(** C5.  No block is emitted with an empty text, or with a text that is
    empty once stripped: a paragraph, heading or quote whose stripped
    flattened text is empty emits nothing, and neither does such a list
    item.  <p></p><p>   </p><p>Real text</p> gives the one paragraph
    "Real text". *)
Theorem blocks_have_text (b : bool) (html : soup) :
  Forall (fun f => exists text st,
              f = Paragraph text st /\ text <> "" /\ Str.strip text <> "")
         (html_to_flowables b html) /\
  (forall name a cs,
      In name ["p"; "h1"; "h2"; "h3"; "blockquote"] ->
      Str.strip (get_text (Tag name a cs)) = "" ->
      process_element (Tag name a cs) = []) /\
  (forall name li lis result,
      Str.strip (get_text li) = "" ->
      list_items name (li :: lis) result = list_items name lis result) /\
  html_to_flowables b [Tag "p" [] []; elem "p" "   "; elem "p" "Real text"] =
    [Paragraph "Real text" ColumnBody].
Proof.
  split; [|split; [|split]].
  - eapply Forall_impl; [|apply html_to_flowables_content].
    intros [text st| |] H; try contradiction. destruct H as [Hb _].
    exists text, st. split; [reflexivity|]. split.
    + apply blank_false_nonempty. exact Hb.
    + apply strip_nonempty_of_not_blank. exact Hb.
  - intros name a cs Hn He.
    simpl in Hn.
    destruct Hn as [<- | [<- | [<- | [<- | [<- | []]]]]];
      cbn; apply block_empty; exact He.
  - intros name li lis result He.
    apply get_text_strip_empty_strip in He. simpl. rewrite He. reflexivity.
  - reflexivity.
Qed.

Lemma blocks_have_text_witness :
  process_element (Tag "h2" [] [NavigableString "  "; Comment "x"]) = [] /\
  list_items "ol" [elem "li" " "; elem "li" "a"] [] = list_items "ol" [elem "li" "a"] [].
Proof.
  split.
  - apply (proj1 (proj2 (blocks_have_text true [])) "h2" [] _).
    + simpl. tauto.
    + reflexivity.
  - apply (proj1 (proj2 (proj2 (blocks_have_text true [])))). reflexivity.
Defined.

(** C6.  The items of an <ol> are numbered "1. ", "2. ", ... in the order
    in which they are emitted, items with empty text taking no number, and
    every <ol> starts again at 1; only the <li> that are direct children
    give blocks; the items of a <ul> are prefixed with "• ". *)
Theorem list_item_numbering (a : attrs) (cs : list node) :
  process_element (Tag "ol" a cs) = numbered 1 (item_texts cs) /\
  List.length (process_element (Tag "ol" a cs)) = List.length (item_texts cs) /\
  (forall k t,
      nth_error (item_texts cs) k = Some t ->
      nth_error (process_element (Tag "ol" a cs)) k =
        Some (Paragraph (Str.of_nat (k + 1) ++ ". " ++ t)%string ColumnBody)) /\
  process_element (Tag "ul" a cs) =
    map (fun t => Paragraph ("• " ++ t)%string ColumnBody) (item_texts cs) /\
  (forall b,
      html_to_flowables b
        [Tag "ol" [] [elem "li" "a"; elem "li" " "; elem "li" "b";
                      Tag "p" [] [elem "li" "nested"]];
         Tag "ol" [] [elem "li" "x"; NavigableString "y"]] =
        [Paragraph "1. a" ColumnBody; Paragraph "2. b" ColumnBody;
         Paragraph "1. x" ColumnBody]).
Proof.
  assert (Hol : process_element (Tag "ol" a cs) = numbered 1 (item_texts cs)).
  { cbn. rewrite list_items_numbered by reflexivity. reflexivity. }
  split; [exact Hol|]. split; [|split; [|split]].
  - rewrite Hol. apply numbered_length.
  - intros k t H. rewrite Hol, (numbered_nth _ 1 k t H).
    replace (1 + k) with (k + 1) by lia. reflexivity.
  - cbn. rewrite list_items_bulleted. reflexivity.
  - intros b. reflexivity.
Qed.

Lemma list_item_numbering_witness :
  nth_error (process_element
               (Tag "ol" [] [elem "li" "a"; elem "li" " "; elem "li" "b"])) 1 =
    Some (Paragraph "2. b" ColumnBody).
Proof.
  apply (proj1 (proj2 (proj2 (list_item_numbering []
           [elem "li" "a"; elem "li" " "; elem "li" "b"]))) 1 "b").
  reflexivity.
Defined.

(** C7.  The children of the body, or of the root when there is no body,
    are classified in order; a <div> gives no block of its own and the
    blocks of its children take its place; an element of any other
    unrecognised type gives nothing and is not entered.
    <div><p>A</p><div><p>B</p></div></div> gives the paragraphs "A" and
    "B" in that order. *)
Theorem div_flattening (b : bool) (html : soup) :
  (forall body,
      find (has_name "body") (descendants (preprocess b html)) = Some body ->
      html_to_flowables b html = flat_map process_element (contents_of body)) /\
  (find (has_name "body") (descendants (preprocess b html)) = None ->
   html_to_flowables b html = flat_map process_element (preprocess b html)) /\
  (forall a cs pre post,
      flat_map process_element (pre ++ Tag "div" a cs :: post) =
        flat_map process_element pre ++ flat_map process_element cs ++
        flat_map process_element post) /\
  (forall name a cs,
      ~ In name ["p"; "h1"; "h2"; "h3"; "blockquote"; "ul"; "ol"; "div"] ->
      process_element (Tag name a cs) = []) /\
  html_to_flowables b
    [Tag "div" [] [elem "p" "A"; Tag "div" [] [elem "p" "B"]]] =
    [Paragraph "A" ColumnBody; Paragraph "B" ColumnBody].
Proof.
  split; [|split; [|split; [|split]]].
  - intros body H. unfold html_to_flowables. rewrite H. reflexivity.
  - intros H. unfold html_to_flowables. rewrite H. reflexivity.
  - intros a cs pre post. rewrite flat_map_app. reflexivity.
  - intros name a cs Hn. cbn [process_element existsb].
    repeat match goal with
           | |- context [Str.eqb name ?s] =>
               let E := fresh "E" in
               destruct (Str.eqb name s) eqn:E;
               [apply string_eqb_eq in E; contradiction Hn; subst name;
                simpl; tauto|]
           end.
    reflexivity.
  - reflexivity.
Qed.

Lemma div_flattening_witness :
  process_element (Tag "span" [] [elem "p" "inside"]) = [] /\
  html_to_flowables true body_page =
    flat_map process_element [elem "h1" "Top"; elem "p" "Text"] /\
  html_to_flowables true plain_page = flat_map process_element plain_page.
Proof.
  split; [|split].
  - apply (proj1 (proj2 (proj2 (proj2 (div_flattening true []))))).
    simpl. intros H.
    repeat (destruct H as [H | H]; [discriminate H|]). exact H.
  - apply (proj1 (div_flattening true body_page)
             (Tag "body" [] [elem "h1" "Top"; elem "p" "Text"])).
    reflexivity.
  - apply (proj1 (proj2 (div_flattening true plain_page))). reflexivity.
Defined.


End Classification.

(** ** The batch: [main] and [generate_newspaper_pdf] *)

Section Batch.
Import Bs4 ArticleFetcher PdfGenerator MakeNewspaper Spec.

Lemma fetch_loop_successes (web : string -> option soup) (limit : nat)
      (urls : list string) (articles : list Article) :
  fetch_loop web limit urls articles = articles ++ successes web limit urls.
Proof.
  revert articles. induction urls as [|u urls IH]; intros articles; simpl.
  - rewrite app_nil_r. reflexivity.
  - destruct (snd (fetch_article web limit u)) as [e|a]; rewrite IH.
    + reflexivity.
    + rewrite <- app_assoc. reflexivity.
Qed.

Lemma successes_app (web : string -> option soup) (limit : nat)
      (l1 l2 : list string) :
  successes web limit (l1 ++ l2) = successes web limit l1 ++ successes web limit l2.
Proof. apply flat_map_app. Qed.

Lemma story_titles_app (l1 l2 : list flowable) :
  story_titles (l1 ++ l2) = story_titles l1 ++ story_titles l2.
Proof. apply flat_map_app. Qed.

Lemma story_titles_content (l : list flowable) :
  Forall content_block l -> story_titles l = [].
Proof.
  induction 1 as [|f l Hf _ IH]; [reflexivity|].
  unfold story_titles in *. simpl. rewrite IH.
  destruct f as [text st| |]; try contradiction.
  destruct Hf as [_ Hst]. simpl in Hst.
  destruct Hst as [<- | [<- | [<- | [<- | []]]]]; reflexivity.
Qed.

Lemma story_titles_article (b : bool) (lib : libraries) (i : nat) (a : Article) :
  story_titles (article_flowables b lib i a) = [title a].
Proof.
  unfold article_flowables. rewrite !story_titles_app.
  rewrite (story_titles_content _ (html_to_flowables_content b (reparse lib (content_html a)))).
  destruct (0 <? i)%nat; reflexivity.
Qed.

Lemma story_titles_add_articles (b : bool) (lib : libraries) (articles : list Article) (i : nat)
      (story : list flowable) :
  story_titles (add_articles b lib i articles story) =
    story_titles story ++ map title articles.
Proof.
  revert i story. induction articles as [|a articles IH]; intros i story; simpl.
  - rewrite app_nil_r. reflexivity.
  - rewrite IH, story_titles_app, story_titles_article, <- app_assoc. reflexivity.
Qed.

Lemma main_outcome (web : string -> option soup) (limit : nat) (b : bool)
      (lib : libraries) (today : string) (urls : list string) (output : string) :
  main web limit b lib today urls output =
    match successes web limit urls with
    | [] => SystemExit 1
    | _ :: _ =>
        match generate_newspaper_pdf_call b lib today output
                                          (successes web limit urls) with
        | inr story => Pdf output story
        | inl e => Uncaught e
        end
    end.
Proof. unfold main. rewrite fetch_loop_successes. reflexivity. Qed.

(** A story that comes out of the call is the story built. *)
Lemma generate_call_story (b : bool) (lib : libraries) (today output : string)
      (articles : list Article) (story : list flowable) :
  generate_newspaper_pdf_call b lib today output articles = inr story ->
  story = generate_newspaper_pdf b lib today articles.
Proof.
  unfold generate_newspaper_pdf_call.
  destruct (first_rejected lib (generate_newspaper_pdf b lib today articles));
    [discriminate|].
  destruct (build_ok lib output (generate_newspaper_pdf b lib today articles));
    [|discriminate].
  intros H. injection H as <-. reflexivity.
Qed.

Lemma main_pdf_story (web : string -> option soup) (limit : nat) (b : bool)
      (lib : libraries) (today : string) (urls : list string) (output out : string)
      (story : list flowable) :
  main web limit b lib today urls output = Pdf out story ->
  out = output /\ successes web limit urls <> [] /\
  story = generate_newspaper_pdf b lib today (successes web limit urls).
Proof.
  rewrite main_outcome.
  destruct (successes web limit urls) as [|a l] eqn:E; [discriminate|].
  destruct (generate_newspaper_pdf_call b lib today output (a :: l)) as [e|st] eqn:G;
    [discriminate|].
  intros H. injection H as <- <-. split; [reflexivity|]. split; [discriminate|].
  apply (generate_call_story b lib today output). exact G.
Qed.

(** C8 (as amended).  A URL whose fetch raises is skipped and the loop goes
    on: document generation is called with exactly the articles of the
    URLs whose fetch returned, in the order of the URLs, and a failure of
    the generation is not caught.  When a document is written, its article
    titles are those of these articles in that order; with one failing URL
    among three and a generation that succeeds, the document holds the
    other two articles in their order. *)
Theorem batch_skips_failures (web : string -> option soup) (limit : nat)
        (b : bool) (lib : libraries) (today : string) :
  (forall urls output,
      main web limit b lib today urls output =
        match successes web limit urls with
        | [] => SystemExit 1
        | _ :: _ =>
            match generate_newspaper_pdf_call b lib today output
                                              (successes web limit urls) with
            | inr story => Pdf output story
            | inl e => Uncaught e
            end
        end) /\
  (forall urls output story,
      main web limit b lib today urls output = Pdf output story ->
      story_titles story = map title (successes web limit urls)) /\
  (forall pre u post e,
      snd (fetch_article web limit u) = inl e ->
      successes web limit (pre ++ u :: post) = successes web limit (pre ++ post)) /\
  (forall pre u post a,
      snd (fetch_article web limit u) = inr a ->
      successes web limit (pre ++ u :: post) =
        successes web limit pre ++ a :: successes web limit post) /\
  (forall u1 u2 u3 e a1 a3 output story,
      snd (fetch_article web limit u1) = inr a1 ->
      snd (fetch_article web limit u2) = inl e ->
      snd (fetch_article web limit u3) = inr a3 ->
      generate_newspaper_pdf_call b lib today output [a1; a3] = inr story ->
      main web limit b lib today [u1; u2; u3] output = Pdf output story /\
      story_titles story = [title a1; title a3]).
Proof.
  split; [|split; [|split; [|split]]].
  - intros urls output. apply main_outcome.
  - intros urls output story H.
    apply main_pdf_story in H as [_ [_ ->]]. unfold generate_newspaper_pdf.
    rewrite story_titles_add_articles. reflexivity.
  - intros pre u post e H. rewrite !successes_app. simpl. rewrite H. reflexivity.
  - intros pre u post a H. rewrite successes_app. simpl. rewrite H. reflexivity.
  - intros u1 u2 u3 e a1 a3 output story H1 H2 H3 G. split.
    + rewrite main_outcome. unfold successes. simpl. rewrite H1, H2, H3. simpl.
      rewrite G. reflexivity.
    + apply generate_call_story in G. subst story. unfold generate_newspaper_pdf.
      rewrite story_titles_add_articles. reflexivity.
Qed.

Lemma batch_skips_failures_witness :
  (main chain_web 10 true lenient_lib "Monday, January 05, 2026"
        [real_url; "https://bad.example/"; reader2] "out.pdf" =
     Pdf "out.pdf"
         (generate_newspaper_pdf true lenient_lib "Monday, January 05, 2026"
            [extract_substack real_url real_page;
             extract_substack real_url real_page]) /\
   story_titles
     (generate_newspaper_pdf true lenient_lib "Monday, January 05, 2026"
        [extract_substack real_url real_page;
         extract_substack real_url real_page]) =
     [title (extract_substack real_url real_page);
      title (extract_substack real_url real_page)]) /\
  successes chain_web 10 ([real_url] ++ "https://bad.example/" :: [reader2]) =
    successes chain_web 10 ([real_url] ++ [reader2]) /\
  successes chain_web 10 (["https://bad.example/"] ++ real_url :: [reader2]) =
    successes chain_web 10 ["https://bad.example/"] ++
    extract_substack real_url real_page :: successes chain_web 10 [reader2] /\
  story_titles
    (generate_newspaper_pdf true lenient_lib "Monday, January 05, 2026"
       [extract_substack real_url real_page]) =
    map title (successes chain_web 10 [reader1]).
Proof.
  pose (T := batch_skips_failures chain_web 10 true lenient_lib
               "Monday, January 05, 2026").
  split; [|split; [|split]].
  - apply (proj2 (proj2 (proj2 (proj2 T)))
             real_url "https://bad.example/" reader2 HTTPError).
    + reflexivity.
    + reflexivity.
    + reflexivity.
    + reflexivity.
  - apply (proj1 (proj2 (proj2 T)) [real_url] "https://bad.example/" [reader2] HTTPError).
    reflexivity.
  - apply (proj1 (proj2 (proj2 (proj2 T))) ["https://bad.example/"] real_url [reader2]).
    reflexivity.
  - apply (proj1 (proj2 T) [reader1] "out.pdf"). reflexivity.
Defined.

(** C8 (as stated) fails: the call of the generator is outside the [try],
    and [Paragraph] raises on a title it cannot read as markup.  Of three
    URLs one fails and two are fetched, yet the run ends with the
    exception and no document. *)
Lemma batch_without_document :
  successes bold_web 10 ["https://bad.example/"; plain_url; bold_url] =
    [extract_general plain_url plain_page; extract_general bold_url bold_page] /\
  main bold_web 10 true strict_lib "Monday, January 05, 2026"
       ["https://bad.example/"; plain_url; bold_url] "out.pdf" =
    Uncaught (ValueError "<b>Unclosed") /\
  ~ (forall web limit b lib today u1 u2 u3 e a2 a3 output,
        snd (fetch_article web limit u1) = inl e ->
        snd (fetch_article web limit u2) = inr a2 ->
        snd (fetch_article web limit u3) = inr a3 ->
        exists story,
          main web limit b lib today [u1; u2; u3] output = Pdf output story).
Proof.
  split; [reflexivity|]. split; [reflexivity|].
  intros H.
  destruct (H bold_web 10 true strict_lib "Monday, January 05, 2026"
              "https://bad.example/" plain_url bold_url HTTPError
              (extract_general plain_url plain_page)
              (extract_general bold_url bold_page) "out.pdf"
              eq_refl eq_refl eq_refl) as [story Hs].
  vm_compute in Hs. discriminate Hs.
Qed.

(** C9.  When every URL of the batch fails, nothing is generated and the
    run ends with exit status 1; a document is only ever produced when
    some fetch returned an article. *)
Theorem empty_batch_exits (web : string -> option soup) (limit : nat)
        (b : bool) (lib : libraries) (today : string) (urls : list string) (output : string) :
  ((forall u, In u urls -> exists e, snd (fetch_article web limit u) = inl e) ->
   main web limit b lib today urls output = SystemExit 1) /\
  (forall out story,
      main web limit b lib today urls output = Pdf out story ->
      exists u a, In u urls /\ snd (fetch_article web limit u) = inr a).
Proof.
  split.
  - intros H. rewrite main_outcome.
    assert (E : successes web limit urls = []).
    { unfold successes. induction urls as [|u urls IH]; [reflexivity|]. simpl.
      destruct (H u (or_introl eq_refl)) as [e ->]. simpl.
      apply IH. intros v Hv. apply H. right. exact Hv. }
    rewrite E. reflexivity.
  - intros out story H. apply main_pdf_story in H as [_ [Hne _]].
    destruct (successes web limit urls) as [|a l] eqn:E; [contradiction Hne; reflexivity|].
    assert (Ha : In a (successes web limit urls)) by (rewrite E; left; reflexivity).
    unfold successes in Ha. apply in_flat_map in Ha as [u [Hu Hin]].
    exists u. destruct (snd (fetch_article web limit u)) as [e|a'] eqn:Eu.
    + contradiction.
    + exists a'. split; [exact Hu | reflexivity].
Qed.

Lemma empty_batch_exits_witness :
  main cycle_web 50 true lenient_lib "Monday, January 05, 2026"
       ["https://bad.example/"; reader1; reader2] "out.pdf" = SystemExit 1.
Proof.
  apply (proj1 (empty_batch_exits cycle_web 50 true lenient_lib
                  "Monday, January 05, 2026"
                  ["https://bad.example/"; reader1; reader2] "out.pdf")).
  intros u [<- | [<- | [<- | []]]].
  - exists HTTPError. reflexivity.
  - exists RecursionError. reflexivity.
  - exists HTTPError. reflexivity.
Defined.

End Batch.


(** ** More on stripping *)

Section StripFacts.
Import Spec.

(** What [lstrip] leaves starts with a character that is not whitespace. *)
Lemma lstrip_head (s : string) :
  Str.lstrip s = "" \/
  exists c t, Str.lstrip s = String c t /\ Str.isspace c = false.
Proof.
  induction s as [|c s IH]; simpl; [left; reflexivity|].
  destruct (Str.isspace c) eqn:E; [exact IH|].
  right. exists c, s. split; [reflexivity | exact E].
Qed.

Lemma rstrip_head (c : N) (s : string) :
  Str.isspace c = false -> exists t, Str.rstrip (String c s) = String c t.
Proof.
  intros E. simpl. destruct (Str.rstrip s) as [|a r].
  - rewrite E. exists "". reflexivity.
  - exists (String a r). reflexivity.
Qed.

Lemma rstrip_idempotent (s : string) : Str.rstrip (Str.rstrip s) = Str.rstrip s.
Proof.
  induction s as [|c s IH]; simpl; [reflexivity|].
  destruct (Str.rstrip s) as [|a r] eqn:E.
  - destruct (Str.isspace c) eqn:Ec; simpl; [reflexivity|].
    rewrite Ec. reflexivity.
  - change (Str.rstrip (String c (String a r))) with
      (match Str.rstrip (String a r) with
       | "" => if Str.isspace c then "" else String c ""
       | String _ _ as r' => String c r'
       end).
    rewrite IH. reflexivity.
Qed.

Lemma strip_head (s : string) :
  Str.strip s = "" \/
  exists c t, Str.strip s = String c t /\ Str.isspace c = false.
Proof.
  unfold Str.strip. destruct (lstrip_head s) as [-> | [c [t [-> E]]]].
  - left. reflexivity.
  - right. destruct (rstrip_head c t E) as [t' ->]. exists c, t'. split; [reflexivity | exact E].
Qed.

Lemma strip_idempotent (s : string) : Str.strip (Str.strip s) = Str.strip s.
Proof.
  destruct (strip_head s) as [-> | [c [t [H E]]]]; [reflexivity|].
  unfold Str.strip at 1. rewrite H. simpl Str.lstrip. rewrite E.
  rewrite <- H. unfold Str.strip. apply rstrip_idempotent.
Qed.

Lemma lstrip_app_blank (a b : string) :
  blank a = true -> Str.lstrip (a ++ b) = Str.lstrip b.
Proof.
  induction a as [|c a IH]; simpl; [reflexivity|].
  intros H. apply andb_true_iff in H as [-> Ha]. apply IH. exact Ha.
Qed.

Lemma rstrip_app (a b : string) :
  Str.rstrip (a ++ b) = if blank b then Str.rstrip a else (a ++ Str.rstrip b)%string.
Proof.
  induction a as [|c a IH]; simpl.
  - destruct (blank b) eqn:E; [apply rstrip_empty_iff; exact E | reflexivity].
  - rewrite IH. destruct (blank b) eqn:E; [reflexivity|].
    destruct (a ++ Str.rstrip b)%string eqn:Eab; [|reflexivity].
    destruct a; [|discriminate]. simpl in Eab.
    apply rstrip_empty_iff in Eab. congruence.
Qed.

(** A non-empty stripped string begins and ends with visible characters. *)
Lemma stripped_head (s : string) :
  Str.strip s = s -> s <> "" ->
  exists c t, s = String c t /\ Str.isspace c = false.
Proof.
  intros H Hne. destruct (strip_head s) as [E | [c [t [E Ec]]]].
  - rewrite H in E. contradiction.
  - exists c, t. split; [rewrite <- H; exact E | exact Ec].
Qed.

Lemma stripped_rstrip (s : string) : Str.strip s = s -> Str.rstrip s = s.
Proof.
  intros H. rewrite <- H at 1. unfold Str.strip.
  rewrite rstrip_idempotent. exact H.
Qed.

Lemma stripped_not_blank (s : string) :
  Str.strip s = s -> s <> "" -> blank s = false.
Proof.
  intros H Hne. destruct (stripped_head s H Hne) as [c [t [-> E]]].
  simpl. rewrite E. reflexivity.
Qed.

(** Text put after a prefix that starts with a visible character: the
    whole is stripped when the text is. *)
Lemma stripped_after_prefix (c : N) (p t : string) :
  Str.isspace c = false ->
  Str.strip t = t -> t <> "" ->
  Str.strip (String c p ++ t) = (String c p ++ t)%string.
Proof.
  intros Ec Ht Hne. unfold Str.strip. simpl Str.lstrip. rewrite Ec.
  change (String c (p ++ t))%string with (String c p ++ t)%string.
  rewrite rstrip_app, (stripped_not_blank t Ht Hne), (stripped_rstrip t Ht).
  reflexivity.
Qed.

Lemma stripped_app (a b : string) :
  Str.strip a = a -> a <> "" -> Str.strip b = b ->
  Str.strip (a ++ b) = (a ++ b)%string.
Proof.
  intros Ha Hne Hb. destruct b as [|cb b'] eqn:Eb.
  - rewrite append_empty_r. exact Ha.
  - destruct (stripped_head a Ha Hne) as [c [t [-> Ec]]].
    apply stripped_after_prefix; [exact Ec | exact Hb | discriminate].
Qed.

End StripFacts.

(** ** The URL file: [load_urls] *)

Section UrlFile.
Import Bs4 ArticleFetcher PdfGenerator MakeNewspaper Spec.

(** The test of the comprehension. *)
Lemma load_urls_keeps (line : string) :
  Str.nonempty (Str.strip line) && negb (Str.startswith "#" line) = true <->
  blank line = false /\ Str.startswith "#" line = false.
Proof.
  rewrite andb_true_iff, negb_true_iff, nonempty_iff. split.
  - intros [H1 H2]. split; [|exact H2].
    destruct (blank line) eqn:E; [|reflexivity].
    apply strip_empty_iff in E. contradiction.
  - intros [H1 H2]. split; [|exact H2].
    apply strip_nonempty_of_not_blank. exact H1.
Qed.

Lemma load_urls_member (f : list string) (u : string) :
  In u (load_urls f) <->
  exists line, In line f /\ blank line = false /\
               Str.startswith "#" line = false /\ u = Str.strip line.
Proof.
  unfold load_urls. rewrite in_map_iff. split.
  - intros [line [Hu Hin]]. apply filter_In in Hin as [Hin Hk].
    apply load_urls_keeps in Hk as [Hb Hs]. exists line. auto.
  - intros [line [Hin [Hb [Hs Hu]]]]. exists line. split; [auto|].
    apply filter_In. split; [exact Hin|]. apply load_urls_keeps. auto.
Qed.

Lemma startswith_hash_space (c : N) (s : string) :
  Str.isspace c = true -> Str.startswith "#" (String c s) = false.
Proof.
  intros H. destruct (N.eqb_spec 35 c) as [<- | Hn].
  - vm_compute in H. discriminate H.
  - apply N.eqb_neq in Hn.
    change (Str.startswith "#" (String c s)) with (N.eqb 35 c && true).
    rewrite Hn. reflexivity.
Qed.

(** X1.  Every URL that [load_urls] returns is non-empty and carries no
    whitespace at either end (so no line terminator either). *)
Theorem load_urls_stripped (f : list string) :
  Forall (fun u => u <> "" /\ Str.strip u = u /\ blank u = false) (load_urls f).
Proof.
  apply Forall_forall. intros u Hu.
  apply load_urls_member in Hu as [line [_ [Hb [_ ->]]]].
  split; [|split].
  - apply strip_nonempty_of_not_blank. exact Hb.
  - apply strip_idempotent.
  - rewrite blank_strip. exact Hb.
Qed.

(** X2.  The URLs returned are exactly the stripped texts of the lines that
    have a visible character and whose first character is not '#'. *)
Theorem load_urls_exactly (f : list string) (u : string) :
  In u (load_urls f) <->
  exists line, In line f /\ blank line = false /\
               Str.startswith "#" line = false /\ u = Str.strip line.
Proof.
  split; intros H.
  - apply load_urls_member in H. exact H.
  - apply load_urls_member. exact H.
Qed.

(** X3.  No URL is returned exactly when every line is blank or starts with
    '#'; in particular for the empty file. *)
Theorem load_urls_empty_iff (f : list string) :
  load_urls f = [] <->
  Forall (fun line => blank line = true \/ Str.startswith "#" line = true) f.
Proof.
  split.
  - intros H. apply Forall_forall. intros line Hin.
    destruct (blank line) eqn:Hb; [left; reflexivity|].
    destruct (Str.startswith "#" line) eqn:Hs; [right; reflexivity|].
    assert (K : In (Str.strip line) (load_urls f))
      by (apply load_urls_member; exists line; auto).
    rewrite H in K. contradiction.
  - intros H. destruct (load_urls f) as [|u l] eqn:E; [reflexivity|].
    assert (K : In u (load_urls f)) by (rewrite E; left; reflexivity).
    apply load_urls_member in K as [line [Hin [Hb [Hs _]]]].
    rewrite Forall_forall in H. destruct (H line Hin); congruence.
Qed.

(** X4.  The comment test looks at the raw line: a '#' that comes after
    leading whitespace does not make the line a comment, and the line is
    returned as a URL that begins with '#'. *)
Theorem load_urls_indented_comment (ws rest : string) :
  ws <> "" -> blank ws = true ->
  load_urls [(ws ++ "#" ++ rest)%string] = [Str.strip ("#" ++ rest)] /\
  Str.startswith "#" (Str.strip ("#" ++ rest)) = true.
Proof.
  intros Hne Hb.
  assert (Hhead : exists t, Str.strip ("#" ++ rest) = String 35 t).
  { unfold Str.strip. simpl Str.lstrip. apply rstrip_head. reflexivity. }
  destruct Hhead as [t Ht]. split.
  - unfold load_urls. cbn [filter].
    assert (Hstrip : Str.strip (ws ++ "#" ++ rest) = Str.strip ("#" ++ rest)).
    { unfold Str.strip. rewrite (lstrip_app_blank ws _ Hb). reflexivity. }
    assert (Hs : Str.startswith "#" (ws ++ "#" ++ rest) = false).
    { destruct ws as [|c ws']; [contradiction Hne; reflexivity|].
      simpl in Hb. apply andb_true_iff in Hb as [Hc _].
      apply startswith_hash_space. exact Hc. }
    rewrite Hstrip, Hs, Ht. cbn [Str.nonempty negb andb map].
    f_equal. rewrite Hstrip. exact Ht.
  - rewrite Ht. reflexivity.
Qed.

Lemma load_urls_indented_comment_witness :
  load_urls ["  # not a comment"%string] = ["# not a comment"%string].
Proof.
  apply (proj1 (load_urls_indented_comment "  " " not a comment"
                  ltac:(discriminate) eq_refl)).
Defined.

(** X5.  Loading works line by line: the URLs of a file in two parts are
    those of the first part followed by those of the second, and there are
    never more URLs than lines. *)
Theorem load_urls_app (f1 f2 : list string) :
  load_urls (f1 ++ f2) = load_urls f1 ++ load_urls f2 /\
  List.length (load_urls (f1 ++ f2)) <= List.length f1 + List.length f2.
Proof.
  unfold load_urls. rewrite filter_app, map_app. split; [reflexivity|].
  rewrite length_app, !length_map.
  pose proof (filter_length_le
                (fun line => Str.nonempty (Str.strip line) &&
                             negb (Str.startswith "#" line)) f1).
  pose proof (filter_length_le
                (fun line => Str.nonempty (Str.strip line) &&
                             negb (Str.startswith "#" line)) f2).
  lia.
Qed.

(** X6.  [main] ends with exit status 1 when the URL file does not exist
    and when all its lines are blank or comments; and whenever a document
    is written, some line that is not a comment was fetched successfully
    under its stripped text. *)
Theorem main_args_outcomes (web : string -> option soup) (limit : nat)
        (b : bool) (lib : libraries) (today : string) (output : string) :
  main_args web limit b lib today None output = SystemExit 1 /\
  (forall f,
      Forall (fun line => blank line = true \/ Str.startswith "#" line = true) f ->
      main_args web limit b lib today (Some f) output = SystemExit 1) /\
  (forall f out story,
      main_args web limit b lib today (Some f) output = Pdf out story ->
      exists line a,
        In line f /\ Str.startswith "#" line = false /\
        snd (fetch_article web limit (Str.strip line)) = inr a).
Proof.
  split; [reflexivity|]. split.
  - intros f H.
    assert (E : load_urls f = []).
    { destruct (load_urls f) as [|u l] eqn:E; [reflexivity|].
      assert (K : In u (load_urls f)) by (rewrite E; left; reflexivity).
      apply load_urls_member in K as [line [Hin [Hb [Hs _]]]].
      rewrite Forall_forall in H. destruct (H line Hin); congruence. }
    simpl. rewrite E. reflexivity.
  - intros f out story H. simpl in H. rewrite main_outcome in H.
    destruct (successes web limit (load_urls f)) as [|a l] eqn:E; [discriminate|].
    assert (Ha : In a (successes web limit (load_urls f))) by (rewrite E; left; reflexivity).
    unfold successes in Ha. apply in_flat_map in Ha as [u [Hu Hin]].
    apply load_urls_member in Hu as [line [Hl [_ [Hs ->]]]].
    exists line. destruct (snd (fetch_article web limit (Str.strip line))) as [e|a'].
    + contradiction.
    + exists a'. auto.
Qed.

Lemma main_args_outcomes_witness :
  main_args chain_web 10 true lenient_lib "Monday, January 05, 2026"
            (Some ["# reading list"%string; "   "%string]) "out.pdf" = SystemExit 1.
Proof.
  apply (proj1 (proj2 (main_args_outcomes chain_web 10 true lenient_lib
                         "Monday, January 05, 2026" "out.pdf"))).
  constructor; [right; reflexivity|].
  constructor; [left; reflexivity|].
  constructor.
Defined.

End UrlFile.

(** ** The requests of a fetch *)

Section Requests.
Import Bs4 ArticleFetcher Spec.

Lemma redirect_target (url : string) (s : soup) (canonical : string) :
  (if Str.contains "/home/post/" url then canonical_url s else None) = Some canonical ->
  Str.contains "/home/post/" url = true /\ canonical_url s = Some canonical.
Proof. destruct (Str.contains "/home/post/" url); [auto | discriminate]. Qed.

Lemma fetch_depth_bounded (web : string -> option soup) (depth : nat) (url : string) :
  List.length (fst (fetch_substack_article_depth web depth url)) <= depth.
Proof.
  revert url. induction depth as [|depth IH]; intros url; simpl; [lia|].
  destruct (web url) as [s|]; [|simpl; lia].
  destruct (if Str.contains "/home/post/" url then canonical_url s else None)
    as [canonical|]; [|simpl; lia].
  specialize (IH canonical).
  destruct (fetch_substack_article_depth web depth canonical) as [l r].
  simpl in *. lia.
Qed.

Lemma fetch_depth_exhausted (web : string -> option soup) (depth : nat) (url : string) :
  snd (fetch_substack_article_depth web depth url) = inl RecursionError ->
  List.length (fst (fetch_substack_article_depth web depth url)) = depth /\
  Forall (fun u => Str.contains "/home/post/" u = true /\
                   exists s c, web u = Some s /\ canonical_url s = Some c)
         (fst (fetch_substack_article_depth web depth url)).
Proof.
  revert url. induction depth as [|depth IH]; intros url; simpl.
  - intros _. split; [reflexivity | constructor].
  - destruct (web url) as [s|] eqn:Hw; [|discriminate].
    destruct (if Str.contains "/home/post/" url then canonical_url s else None)
      as [canonical|] eqn:Ec; [|discriminate].
    apply redirect_target in Ec as [Hr Hc].
    specialize (IH canonical).
    destruct (fetch_substack_article_depth web depth canonical) as [l r].
    simpl in *. intros H. destruct (IH H) as [Hlen Hall].
    split; [rewrite Hlen; reflexivity|].
    constructor; [|exact Hall]. split; [exact Hr|]. exists s, canonical. auto.
Qed.

Lemma fetch_depth_returned (web : string -> option soup) (depth : nat)
      (url : string) (a : Article) :
  snd (fetch_substack_article_depth web depth url) = inr a ->
  let requests := fst (fetch_substack_article_depth web depth url) in
  requests <> [] /\
  last requests "" = ArticleFetcher.url a /\
  Forall (fun u => Str.contains "/home/post/" u = true) (removelast requests) /\
  exists s, web (ArticleFetcher.url a) = Some s /\
            a = extract_substack (ArticleFetcher.url a) s /\
            (Str.contains "/home/post/" (ArticleFetcher.url a) = true ->
             canonical_url s = None).
Proof.
  revert url. induction depth as [|depth IH]; intros url; simpl; [discriminate|].
  destruct (web url) as [s|] eqn:Hw; [|discriminate].
  destruct (if Str.contains "/home/post/" url then canonical_url s else None)
    as [canonical|] eqn:Ec.
  - apply redirect_target in Ec as [Hr Hc].
    specialize (IH canonical).
    destruct (fetch_substack_article_depth web depth canonical) as [l r].
    simpl in *. intros H. destruct (IH H) as [Hne [Hlast [Hall Hs]]].
    destruct l as [|u l]; [contradiction Hne; reflexivity|].
    split; [discriminate|]. split; [exact Hlast|]. split; [|exact Hs].
    constructor; [exact Hr | exact Hall].
  - simpl. intros H. injection H as <-. cbn.
    split; [discriminate|]. split; [reflexivity|]. split; [constructor|].
    exists s. split; [exact Hw|]. split; [reflexivity|].
    intros Hr. rewrite Hr in Ec. exact Ec.
Qed.

Lemma fetch_depth_http_error (web : string -> option soup) (depth : nat) (url : string) :
  snd (fetch_substack_article_depth web depth url) = inl HTTPError ->
  let requests := fst (fetch_substack_article_depth web depth url) in
  requests <> [] /\ web (last requests "") = None /\
  Forall (fun u => Str.contains "/home/post/" u = true) (removelast requests).
Proof.
  revert url. induction depth as [|depth IH]; intros url; simpl; [discriminate|].
  destruct (web url) as [s|] eqn:Hw.
  - destruct (if Str.contains "/home/post/" url then canonical_url s else None)
      as [canonical|] eqn:Ec; [|discriminate].
    apply redirect_target in Ec as [Hr Hc].
    specialize (IH canonical).
    destruct (fetch_substack_article_depth web depth canonical) as [l r].
    simpl in *. intros H. destruct (IH H) as [Hne [Hlast Hall]].
    destruct l as [|u l]; [contradiction Hne; reflexivity|].
    split; [discriminate|]. split; [exact Hlast|].
    constructor; [exact Hr | exact Hall].
  - intros _. simpl. split; [discriminate|]. split; [exact Hw | constructor].
Qed.

(** X7.  A site-specific fetch never makes more requests than the recursion
    limit allows, and it ends in [RecursionError] only after exactly that
    many requests, each to a reader view whose page named a canonical
    URL. *)
Theorem fetch_substack_requests_bounded (web : string -> option soup)
        (limit : nat) (url : string) :
  List.length (fst (fetch_substack_article web limit url)) <= limit /\
  (snd (fetch_substack_article web limit url) = inl RecursionError ->
   List.length (fst (fetch_substack_article web limit url)) = limit /\
   Forall (fun u => Str.contains "/home/post/" u = true /\
                    exists s c, web u = Some s /\ canonical_url s = Some c)
          (fst (fetch_substack_article web limit url))).
Proof.
  unfold fetch_substack_article. split.
  - apply fetch_depth_bounded.
  - intros H. exact (fetch_depth_exhausted web limit url H).
Qed.

Lemma fetch_substack_requests_bounded_witness :
  List.length (fst (fetch_substack_article cycle_web 7 reader1)) = 7 /\
  Forall (fun u => Str.contains "/home/post/" u = true /\
                   exists s c, cycle_web u = Some s /\ canonical_url s = Some c)
         (fst (fetch_substack_article cycle_web 7 reader1)).
Proof.
  apply (proj2 (fetch_substack_requests_bounded cycle_web 7 reader1)).
  reflexivity.
Defined.

(** X8.  The article a site-specific fetch returns is extracted from the
    page of the last URL requested, and its [url] field is that URL, not
    the one asked for: every earlier request went to a reader view, and
    the last page is not a reader view with a canonical link. *)
Theorem fetch_substack_article_source (web : string -> option soup)
        (limit : nat) (url : string) (a : Article) :
  snd (fetch_substack_article web limit url) = inr a ->
  fst (fetch_substack_article web limit url) <> [] /\
  last (fst (fetch_substack_article web limit url)) "" = ArticleFetcher.url a /\
  Forall (fun u => Str.contains "/home/post/" u = true)
         (removelast (fst (fetch_substack_article web limit url))) /\
  exists s, web (ArticleFetcher.url a) = Some s /\
            a = extract_substack (ArticleFetcher.url a) s /\
            (Str.contains "/home/post/" (ArticleFetcher.url a) = true ->
             canonical_url s = None).
Proof.
  unfold fetch_substack_article. intros H.
  exact (fetch_depth_returned web limit url a H).
Qed.

Lemma fetch_substack_article_source_witness :
  last (fst (fetch_substack_article chain_web 10 reader1)) "" = real_url.
Proof.
  apply (proj1 (proj2 (fetch_substack_article_source chain_web 10 reader1
                         (extract_substack real_url real_page) eq_refl))).
Defined.

(** X9.  When a site-specific fetch fails with an HTTP error, the failing
    request is the last one made, and every request before it went to a
    reader view: an error on a canonical target fails the whole fetch. *)
Theorem fetch_substack_http_error (web : string -> option soup)
        (limit : nat) (url : string) :
  snd (fetch_substack_article web limit url) = inl HTTPError ->
  fst (fetch_substack_article web limit url) <> [] /\
  web (last (fst (fetch_substack_article web limit url)) "") = None /\
  Forall (fun u => Str.contains "/home/post/" u = true)
         (removelast (fst (fetch_substack_article web limit url))).
Proof.
  unfold fetch_substack_article. intros H.
  exact (fetch_depth_http_error web limit url H).
Qed.

Lemma fetch_substack_http_error_witness :
  dead_link_web (last (fst (fetch_substack_article dead_link_web 10 reader1)) "") = None.
Proof.
  apply (proj1 (proj2 (fetch_substack_http_error dead_link_web 10 reader1 eq_refl))).
Defined.

End Requests.

(** ** Containers and what is stripped from them *)

Section Containers.
Import Bs4 ArticleFetcher PdfGenerator Spec.

Lemma descendants_cons (c : node) (l : list node) :
  descendants (c :: l) = c :: descendants_of c ++ descendants l.
Proof. reflexivity. Qed.

Lemma descendants_of_tag (name : string) (a : attrs) (cs : list node) :
  descendants_of (Tag name a cs) = descendants cs.
Proof. reflexivity. Qed.

Lemma descendants_app (l1 l2 : list node) :
  descendants (l1 ++ l2) = descendants l1 ++ descendants l2.
Proof. apply flat_map_app. Qed.

Lemma name_in_by_tag (names : list string) : by_tag (name_in names).
Proof. intros name a cs cs'. reflexivity. Qed.

Lemma div_class_by_tag (c : string) : by_tag (div_class c).
Proof. intros name a cs cs'. reflexivity. Qed.

Lemma by_tag_decompose (q p : node -> bool) (n : node) :
  by_tag q -> q (decompose_all_in p n) = q n.
Proof. intros Hq. destruct n as [s|s|name a cs]; [reflexivity | reflexivity | apply Hq]. Qed.

(** After the removal no node that satisfies the test is left, and no node
    that satisfies another such test comes into being. *)
Lemma decompose_all_clean (p q : node -> bool) (l : list node) :
  by_tag q ->
  Forall (fun c => Forall (fun d => q d = false)
                          (descendants_of (decompose_all_in p c)) /\
                   (q c = true -> p c = true)) l ->
  Forall (fun d => q d = false) (descendants (decompose_all p l)).
Proof.
  intros Hq H. unfold decompose_all.
  induction H as [|c l [Hc Hpc] _ IH]; [constructor|].
  simpl. destruct (p c) eqn:Ep; [exact IH|].
  rewrite descendants_cons. constructor.
  - rewrite (by_tag_decompose q p c Hq).
    destruct (q c) eqn:Eq; [|reflexivity]. specialize (Hpc eq_refl). congruence.
  - apply Forall_app. split; [exact Hc | exact IH].
Qed.

Lemma decompose_all_in_removes (p : node -> bool) (n : node) :
  by_tag p ->
  Forall (fun d => p d = false) (descendants_of (decompose_all_in p n)).
Proof.
  intros Hp. induction n as [s|s|name a cs IH] using node_forall_ind;
    [constructor | constructor |].
  cbn [decompose_all_in]. rewrite descendants_of_tag.
  apply (decompose_all_clean p p cs Hp).
  eapply Forall_impl; [|exact IH]. intros c Hc. split; [exact Hc | auto].
Qed.

Lemma decompose_all_removes (p : node -> bool) (l : list node) :
  by_tag p ->
  Forall (fun d => p d = false) (descendants (decompose_all p l)).
Proof.
  intros Hp. apply (decompose_all_clean p p l Hp).
  apply Forall_forall. intros c _. split; [apply decompose_all_in_removes; exact Hp | auto].
Qed.

Lemma decompose_all_in_keeps_clean (p q : node -> bool) (n : node) :
  by_tag q ->
  Forall (fun d => q d = false) (descendants_of n) ->
  Forall (fun d => q d = false) (descendants_of (decompose_all_in p n)).
Proof.
  intros Hq. induction n as [s|s|name a cs IH] using node_forall_ind;
    [constructor | constructor |].
  cbn [decompose_all_in]. rewrite !descendants_of_tag. intros H.
  induction IH as [|c cs Hc _ IHcs]; [constructor|].
  rewrite descendants_cons in H. inversion H as [|? ? Hqc Hrest]; subst.
  apply Forall_app in Hrest as [Hin Hl].
  simpl. destruct (p c); [apply IHcs; exact Hl|].
  rewrite descendants_cons. constructor.
  - rewrite (by_tag_decompose q p c Hq). exact Hqc.
  - apply Forall_app. split; [apply Hc; exact Hin | apply IHcs; exact Hl].
Qed.

Lemma decompose_all_keeps_clean (p q : node -> bool) (l : list node) :
  by_tag q ->
  Forall (fun d => q d = false) (descendants l) ->
  Forall (fun d => q d = false) (descendants (decompose_all p l)).
Proof.
  intros Hq H.
  change (Forall (fun d => q d = false)
                 (descendants_of (decompose_all_in p (Tag "" [] l)))).
  apply decompose_all_in_keeps_clean; assumption.
Qed.

(** Where nothing satisfies the test, nothing changes. *)
Lemma decompose_all_in_identity (p : node -> bool) (n : node) :
  Forall (fun d => p d = false) (descendants_of n) ->
  decompose_all_in p n = n.
Proof.
  induction n as [s|s|name a cs IH] using node_forall_ind;
    [reflexivity | reflexivity |].
  rewrite descendants_of_tag. intros H. cbn [decompose_all_in]. f_equal.
  induction IH as [|c cs Hc _ IHcs]; [reflexivity|].
  rewrite descendants_cons in H. inversion H as [|? ? Hpc Hrest]; subst.
  apply Forall_app in Hrest as [Hin Hl].
  simpl. rewrite Hpc, (Hc Hin), (IHcs Hl). reflexivity.
Qed.

Lemma decompose_all_identity (p : node -> bool) (l : list node) :
  Forall (fun d => p d = false) (descendants l) ->
  decompose_all p l = l.
Proof.
  intros H.
  assert (E : decompose_all_in p (Tag "" [] l) = Tag "" [] l)
    by (apply decompose_all_in_identity; exact H).
  cbn [decompose_all_in] in E. injection E as E. exact E.
Qed.

Lemma find_some_node (p : node -> bool) (l : list node) (d : node) :
  find p l = Some d -> In d l /\ p d = true.
Proof. apply List.find_some. Qed.

Lemma substack_content_div_found (s : soup) (d : node) :
  substack_content_div s = Some d ->
  In d (descendants s) /\ name_in ["div"; "article"] d = true.
Proof.
  unfold substack_content_div.
  destruct (find (div_class "available-content") (descendants s)) as [d1|] eqn:E1.
  - intros H. injection H as <-. apply find_some_node in E1 as [Hin Hp].
    split; [exact Hin|]. unfold div_class in Hp. apply andb_true_iff in Hp as [Hn _].
    simpl. rewrite Hn. reflexivity.
  - destruct (find (div_class "body") (descendants s)) as [d2|] eqn:E2.
    + intros H. injection H as <-. apply find_some_node in E2 as [Hin Hp].
      split; [exact Hin|]. unfold div_class in Hp. apply andb_true_iff in Hp as [Hn _].
      simpl. rewrite Hn. reflexivity.
    + intros H. apply find_some_node in H as [Hin Hp].
      split; [exact Hin|]. simpl. rewrite Hp. apply orb_true_r.
Qed.

Lemma first_selector_found (selectors : list (node -> bool)) (s : soup) (d : node) :
  first_selector selectors s = Some d ->
  In d (descendants s) /\ exists selector, In selector selectors /\ selector d = true.
Proof.
  induction selectors as [|sel rest IH]; simpl; [discriminate|].
  destruct (find sel (descendants s)) as [d'|] eqn:E.
  - intros H. injection H as <-. apply find_some_node in E as [Hin Hp].
    split; [exact Hin|]. exists sel. auto.
  - intros H. destruct (IH H) as [Hin [sel' [Hs Hp]]].
    split; [exact Hin|]. exists sel'. auto.
Qed.

(** The fallback loop, from any state of its two variables. *)
Lemma longest_div_from (l : list node) (m : nat) (c : option node) :
  match c with
  | None => m = 0
  | Some d0 => text_len d0 = m /\ 0 < m
  end ->
  match longest_div l m c with
  | None => c = None /\ Forall (fun d => text_len d = 0) l
  | Some d =>
      (c = Some d \/ In d l) /\ 0 < text_len d /\ m <= text_len d /\
      Forall (fun d' => text_len d' <= text_len d) l
  end.
Proof.
  revert m c. induction l as [|div rest IH]; intros m c Hc; simpl.
  - destruct c as [d0|].
    + destruct Hc as [Hm Hpos]. repeat split; auto; lia.
    + auto.
  - fold (text_len div). destruct (m <? text_len div)%nat eqn:E.
    + apply Nat.ltb_lt in E.
      assert (Hc' : text_len div = text_len div /\ 0 < text_len div) by (split; lia).
      specialize (IH (text_len div) (Some div) Hc').
      destruct (longest_div rest (text_len div) (Some div)) as [d|].
      * destruct IH as [Hin [Hpos [Hle Hall]]]. split; [|split; [|split]].
        -- right. destruct Hin as [Hin | Hin]; [left; congruence | right; exact Hin].
        -- exact Hpos.
        -- lia.
        -- constructor; [exact Hle | exact Hall].
      * destruct IH as [Habs _]. discriminate.
    + apply Nat.ltb_ge in E. specialize (IH m c Hc).
      destruct (longest_div rest m c) as [d|].
      * destruct IH as [Hin [Hpos [Hle Hall]]]. split; [|split; [|split]].
        -- destruct Hin as [Hin | Hin]; [left; exact Hin | right; right; exact Hin].
        -- exact Hpos.
        -- exact Hle.
        -- constructor; [lia | exact Hall].
      * destruct IH as [Hnone Hall]. split; [exact Hnone|].
        constructor; [|exact Hall]. subst c. lia.
Qed.

Lemma general_content_div_found (s : soup) (d : node) :
  general_content_div s = Some d ->
  In d (descendants s) /\ name_in ["article"; "div"; "main"] d = true.
Proof.
  unfold general_content_div.
  destruct (first_selector _ s) as [d'|] eqn:E.
  - intros H. injection H as <-.
    apply first_selector_found in E as [Hin [sel [Hsel Hp]]].
    split; [exact Hin|]. simpl in Hsel.
    destruct Hsel as [<- | [<- | [<- | [<- | [<- | []]]]]];
      try (unfold div_class in Hp; apply andb_true_iff in Hp as [Hp _]);
      simpl; rewrite Hp; rewrite ?orb_true_r; reflexivity.
  - intros H.
    pose proof (longest_div_from (find_all (has_name "div") (descendants s)) 0 None eq_refl) as L.
    rewrite H in L. destruct L as [[Habs | Hin] _]; [discriminate|].
    apply filter_In in Hin as [Hin Hn]. split; [exact Hin|].
    simpl. rewrite Hn, orb_true_r. reflexivity.
Qed.

Lemma container_not_unwanted (allowed unwanted : list string) (d : node) :
  (forall x, In x allowed -> In x unwanted -> False) ->
  name_in allowed d = true -> name_in unwanted d = false.
Proof.
  intros Hdis H. unfold name_in in *. apply existsb_exists in H as [x [Hx Hn]].
  destruct d as [s|s|name a cs]; try discriminate Hn.
  simpl in Hn. apply string_eqb_eq in Hn. subst x.
  destruct (existsb (fun s => has_name s (Tag name a cs)) unwanted) eqn:E; [|reflexivity].
  apply existsb_exists in E as [y [Hy Hn]]. simpl in Hn.
  apply string_eqb_eq in Hn. subst y. destruct (Hdis name Hx Hy).
Qed.

Lemma serialise_clean (allowed unwanted : list string) (c : option node) :
  (forall x, In x allowed -> In x unwanted -> False) ->
  (forall d, c = Some d -> name_in allowed d = true) ->
  Forall (fun d => name_in unwanted d = false) (descendants (serialise unwanted c)).
Proof.
  intros Hdis Hc. destruct c as [d|]; [|constructor].
  unfold serialise. rewrite descendants_cons. constructor.
  - rewrite (by_tag_decompose _ _ d (name_in_by_tag unwanted)).
    apply (container_not_unwanted allowed unwanted d Hdis). apply Hc. reflexivity.
  - apply Forall_app. split; [|constructor].
    apply decompose_all_in_removes. apply name_in_by_tag.
Qed.

Lemma get_text_strip_stripped (n : node) :
  Str.strip (get_text_strip n) = get_text_strip n.
Proof.
  unfold get_text_strip. induction (strings_of n) as [|x l IH]; [reflexivity|].
  simpl. destruct (Str.nonempty (Str.strip x)) eqn:E; [|exact IH].
  rewrite join_cons. apply stripped_app.
  - apply strip_idempotent.
  - apply nonempty_iff. exact E.
  - exact IH.
Qed.

Lemma or_else_stripped (x : option string) (d : string) :
  (forall t, x = Some t -> Str.strip t = t) -> Str.strip d = d ->
  Str.strip (Str.or_else x d) = Str.or_else x d.
Proof.
  intros Hx Hd. unfold Str.or_else. destruct x as [t|]; [|exact Hd].
  destruct (Str.nonempty t); [apply Hx; reflexivity | exact Hd].
Qed.

(** X12.  The content of a site-specific article holds no script, style,
    button or form element at any depth, and is at most one container. *)
Theorem substack_content_stripped (url : string) (s : soup) :
  Forall (fun d => name_in ["script"; "style"; "button"; "form"] d = false)
         (descendants (content_html (extract_substack url s))) /\
  List.length (content_html (extract_substack url s)) <= 1.
Proof.
  unfold extract_substack. cbn [content_html]. split.
  - apply (serialise_clean ["div"; "article"]).
    + simpl. intros x [<- | [<- | []]] H;
        repeat (destruct H as [H | H]; [discriminate H|]); exact H.
    + intros d Hd. apply substack_content_div_found in Hd as [_ Hn]. exact Hn.
  - destruct (substack_content_div s); simpl; lia.
Qed.

(** X13.  The content of a generic article holds no script, style, nav,
    header, footer or aside element at any depth, and is at most one
    container. *)
Theorem general_content_stripped (url : string) (s : soup) :
  Forall (fun d => name_in ["script"; "style"; "nav"; "header"; "footer"; "aside"] d = false)
         (descendants (content_html (extract_general url s))) /\
  List.length (content_html (extract_general url s)) <= 1.
Proof.
  unfold extract_general. cbn [content_html]. split.
  - apply (serialise_clean ["article"; "div"; "main"]).
    + simpl. intros x [<- | [<- | [<- | []]]] H;
        repeat (destruct H as [H | H]; [discriminate H|]); exact H.
    + intros d Hd. apply general_content_div_found in Hd as [_ Hn]. exact Hn.
  - destruct (general_content_div s); simpl; lia.
Qed.

(** X14.  A container with none of the unwanted elements below it is
    passed on unchanged, by either strategy. *)
Theorem clean_container_unchanged (url : string) (s : soup) (d : node) :
  (substack_content_div s = Some d ->
   Forall (fun c => name_in ["script"; "style"; "button"; "form"] c = false)
          (descendants_of d) ->
   content_html (extract_substack url s) = [d]) /\
  (general_content_div s = Some d ->
   Forall (fun c => name_in ["script"; "style"; "nav"; "header"; "footer"; "aside"] c = false)
          (descendants_of d) ->
   content_html (extract_general url s) = [d]).
Proof.
  split; intros Hd Hclean.
  - unfold extract_substack. cbn [content_html]. rewrite Hd. unfold serialise.
    rewrite (decompose_all_in_identity _ d Hclean). reflexivity.
  - unfold extract_general. cbn [content_html]. rewrite Hd. unfold serialise.
    rewrite (decompose_all_in_identity _ d Hclean). reflexivity.
Qed.

Lemma clean_container_unchanged_witness :
  content_html (extract_substack real_url real_page) =
    [Tag "div" [("class", "available-content")] [elem "p" "Hello"]] /\
  content_html (extract_general plain_url plain_page) =
    [Tag "div" [] [elem "p" "Body"]].
Proof.
  split.
  - apply (proj1 (clean_container_unchanged real_url real_page _)).
    + reflexivity.
    + repeat constructor.
  - apply (proj2 (clean_container_unchanged plain_url plain_page _)).
    + reflexivity.
    + repeat constructor.
Defined.

(** The division picked is the first one that is longer than all before
    it and at least as long as all after it. *)
Lemma longest_div_first (l : list node) (m : nat) (c : option node) (d : node) :
  longest_div l m c = Some d ->
  (c = Some d /\ Forall (fun d' => text_len d' <= m) l) \/
  (exists pre post,
      l = pre ++ d :: post /\ m < text_len d /\
      Forall (fun d' => text_len d' < text_len d) pre /\
      Forall (fun d' => text_len d' <= text_len d) post).
Proof.
  revert m c. induction l as [|div rest IH]; intros m c; simpl.
  - intros ->. left. split; [reflexivity | constructor].
  - fold (text_len div). destruct (m <? text_len div)%nat eqn:E.
    + apply Nat.ltb_lt in E. intros H.
      destruct (IH _ _ H) as [[Hc Hall] | [pre [post [-> [Hm [Hpre Hpost]]]]]].
      * injection Hc as <-. right. exists [], rest.
        split; [reflexivity|]. split; [exact E|]. split; [constructor | exact Hall].
      * right. exists (div :: pre), post.
        split; [reflexivity|]. split; [lia|]. split; [|exact Hpost].
        constructor; [lia | exact Hpre].
    + apply Nat.ltb_ge in E. intros H.
      destruct (IH _ _ H) as [[Hc Hall] | [pre [post [-> [Hm [Hpre Hpost]]]]]].
      * left. split; [exact Hc|]. constructor; [exact E | exact Hall].
      * right. exists (div :: pre), post.
        split; [reflexivity|]. split; [exact Hm|]. split; [|exact Hpost].
        constructor; [lia | exact Hpre].
Qed.

(** X15.  The fallback of the generic strategy picks a division whose text
    is non-empty and at least as long as that of every other division, the
    first such one when several are equally long; it picks none exactly
    when every division has empty text. *)
Theorem longest_div_maximal (all_divs : list node) :
  match longest_div all_divs 0 None with
  | Some d =>
      0 < text_len d /\
      exists pre post,
        all_divs = pre ++ d :: post /\
        Forall (fun d' => text_len d' < text_len d) pre /\
        Forall (fun d' => text_len d' <= text_len d) post
  | None => Forall (fun d => text_len d = 0) all_divs
  end.
Proof.
  pose proof (longest_div_from all_divs 0 None eq_refl) as L.
  destruct (longest_div all_divs 0 None) as [d|] eqn:E.
  - destruct L as [_ [Hpos _]]. split; [exact Hpos|].
    destruct (longest_div_first _ _ _ _ E)
      as [[Habs _] | [pre [post [Hl [_ [Hpre Hpost]]]]]]; [discriminate|].
    exists pre, post. auto.
  - destruct L as [_ Hall]. exact Hall.
Qed.

(** X16.  The content container either strategy settles on is an element of
    the page itself: a div or article for the site-specific strategy, an
    article, div or main for the generic one. *)
Theorem content_container_of_page (s : soup) (d : node) :
  (substack_content_div s = Some d ->
   In d (descendants s) /\ name_in ["div"; "article"] d = true) /\
  (general_content_div s = Some d ->
   In d (descendants s) /\ name_in ["article"; "div"; "main"] d = true).
Proof.
  split; intros H.
  - apply substack_content_div_found. exact H.
  - apply general_content_div_found. exact H.
Qed.

Lemma content_container_of_page_witness :
  In (Tag "div" [] [NavigableString "abcd"]) (descendants two_div_page) /\
  name_in ["article"; "div"; "main"] (Tag "div" [] [NavigableString "abcd"]) = true.
Proof.
  apply (proj2 (content_container_of_page two_div_page
                  (Tag "div" [] [NavigableString "abcd"]))).
  reflexivity.
Defined.

(** X17.  The title of an article carries no whitespace at either end,
    under both strategies. *)
Theorem article_title_stripped (url : string) (s : soup) :
  Str.strip (title (extract_substack url s)) = title (extract_substack url s) /\
  Str.strip (title (extract_general url s)) = title (extract_general url s).
Proof.
  unfold extract_substack, extract_general. cbn [title].
  split; apply or_else_stripped; try reflexivity.
  - unfold substack_title. intros t.
    destruct (find _ (descendants s)) as [t1|].
    + intros H. injection H as <-. apply get_text_strip_stripped.
    + destruct (find (has_name "title") (descendants s)) as [t2|]; [|discriminate].
      intros H. injection H as <-. apply get_text_strip_stripped.
  - unfold general_title. intros t.
    destruct (find (has_name "h1") (descendants s)) as [t1|].
    + intros H. injection H as <-. apply get_text_strip_stripped.
    + destruct (find (has_name "title") (descendants s)) as [t2|]; [|discriminate].
      intros H. injection H as <-. apply get_text_strip_stripped.
Qed.


End Containers.

(** ** Preprocessing and the texts of the blocks *)

Section Preprocessing.
Import Bs4 ArticleFetcher PdfGenerator Spec.

Lemma delete_section_clean (b : bool) (q : node -> bool) (rest : list node) :
  Forall (fun d => q d = false) (descendants rest) ->
  Forall (fun d => q d = false) (descendants (delete_section b rest)).
Proof.
  induction rest as [|c rest IH]; intros H; [exact H|].
  cbn [delete_section]. destruct (negb (truthy c)); [exact H|].
  destruct (name_in headings c); [exact H|].
  rewrite descendants_cons in H. inversion H as [|? ? Hc Hrest]; subst.
  apply Forall_app in Hrest as [Hin Hl].
  destruct (has_decompose b c); [apply IH; exact Hl|].
  rewrite descendants_cons. constructor; [exact Hc|].
  apply Forall_app. split; [exact Hin | apply IH; exact Hl].
Qed.

Lemma remove_first_clean (b : bool) (q : node -> bool) (l : list node) :
  Forall (fun c => forall c', remove_references_in b c = Some c' ->
                              Forall (fun d => q d = false) (descendants_of c) ->
                              Forall (fun d => q d = false) (descendants_of c') /\
                              q c' = q c) l ->
  forall l', remove_first b (remove_references_in b) l = Some l' ->
             Forall (fun d => q d = false) (descendants l) ->
             Forall (fun d => q d = false) (descendants l').
Proof.
  induction 1 as [|c l Hc _ IH]; intros l' Hl' Hd; simpl in Hl'; [discriminate|].
  rewrite descendants_cons in Hd. inversion Hd as [|? ? Hqc Hrest]; subst.
  apply Forall_app in Hrest as [Hin Hl].
  destruct (is_references c).
  - injection Hl' as <-. apply delete_section_clean. exact Hl.
  - destruct (remove_references_in b c) as [c'|] eqn:Ec.
    + injection Hl' as <-. destruct (Hc c' eq_refl Hin) as [Hin' Hq'].
      rewrite descendants_cons. constructor; [congruence|].
      apply Forall_app. split; [exact Hin' | exact Hl].
    + destruct (remove_first b (remove_references_in b) l) as [l0|]; [|discriminate].
      injection Hl' as <-. rewrite descendants_cons. constructor; [exact Hqc|].
      apply Forall_app. split; [exact Hin | apply IH; [reflexivity | exact Hl]].
Qed.

Lemma remove_references_in_clean (b : bool) (q : node -> bool) (n : node) :
  by_tag q ->
  forall n', remove_references_in b n = Some n' ->
             Forall (fun d => q d = false) (descendants_of n) ->
             Forall (fun d => q d = false) (descendants_of n') /\ q n' = q n.
Proof.
  intros Hq. induction n as [s|s|name a cs IH] using node_forall_ind;
    [discriminate | discriminate |].
  intros n' Hn' Hd. cbn [remove_references_in] in Hn'.
  destruct (remove_first b (remove_references_in b) cs) as [cs'|] eqn:E; [|discriminate].
  injection Hn' as <-. split; [|apply Hq].
  rewrite descendants_of_tag in *. apply (remove_first_clean b q cs IH cs' E Hd).
Qed.

(** Removing the References section brings no element into being. *)
Lemma remove_references_clean (b : bool) (q : node -> bool) (s : soup) :
  by_tag q ->
  Forall (fun d => q d = false) (descendants s) ->
  Forall (fun d => q d = false) (descendants (remove_references b s)).
Proof.
  intros Hq Hd. unfold remove_references.
  destruct (remove_first b (remove_references_in b) s) as [s'|] eqn:E; [|exact Hd].
  apply (remove_first_clean b q s) with (l' := s'); [|exact E | exact Hd].
  apply Forall_forall. intros c _. apply remove_references_in_clean. exact Hq.
Qed.


Lemma of_nat_head (k : nat) :
  exists c s, Str.of_nat k = String c s /\ Str.isspace c = false.
Proof.
  unfold Str.of_nat. destruct (Nat.to_uint k) as [|u|u|u|u|u|u|u|u|u|u] eqn:E;
    try (eexists; eexists; split; reflexivity).
  exfalso. pose proof (DecimalNat.Unsigned.of_to k) as H.
  rewrite E in H. simpl in H. subst k. discriminate E.
Qed.

Lemma stripped_prefixed (pre t : string) :
  (exists c s, pre = String c s /\ Str.isspace c = false) ->
  Str.strip t = t -> t <> "" ->
  Str.strip (pre ++ " " ++ t) = (pre ++ " " ++ t)%string.
Proof.
  intros [c [s [-> Hc]]] Ht Hne. rewrite string_app_assoc.
  change ((String c s ++ " ") ++ t)%string with (String c (s ++ " ") ++ t)%string.
  apply stripped_after_prefix; assumption.
Qed.

Lemma block_stripped (st : style) (e : node) :
  Forall (fun f => Str.strip (text_of f) = text_of f) (block st e).
Proof.
  unfold block. destruct (Str.nonempty (get_text_strip e)); constructor; [|constructor].
  apply get_text_strip_stripped.
Qed.

Lemma list_items_stripped (name : string) (lis : list node) (result : list flowable) :
  Forall (fun f => Str.strip (text_of f) = text_of f) result ->
  Forall (fun f => Str.strip (text_of f) = text_of f) (list_items name lis result).
Proof.
  revert result. induction lis as [|li rest IH]; intros result Hr;
    cbn [list_items]; cbv zeta; [exact Hr|].
  destruct (Str.nonempty (get_text_strip li)) eqn:E; [|apply IH; exact Hr].
  apply IH. apply Forall_app. split; [exact Hr|]. constructor; [|constructor].
  apply nonempty_iff in E. cbn [text_of].
  apply stripped_prefixed; [|apply get_text_strip_stripped | exact E].
  destruct (Str.eqb name "ul").
  - eexists; eexists; split; reflexivity.
  - destruct (of_nat_head (List.length result + 1)) as [c [s [-> Hc]]].
    exists c, (s ++ ".")%string. split; [reflexivity | exact Hc].
Qed.

Lemma process_element_stripped (e : node) :
  Forall (fun f => Str.strip (text_of f) = text_of f) (process_element e).
Proof.
  induction e as [s|s|name a cs IH] using node_forall_ind;
    [constructor | constructor |].
  cbn [process_element].
  destruct (Str.eqb name "p"); [apply block_stripped|].
  destruct (existsb (Str.eqb name) ["h1"; "h2"]); [apply block_stripped|].
  destruct (Str.eqb name "h3"); [apply block_stripped|].
  destruct (Str.eqb name "blockquote"); [apply block_stripped|].
  destruct (existsb (Str.eqb name) ["ul"; "ol"]); [apply list_items_stripped; constructor|].
  destruct (Str.eqb name "div"); [|constructor].
  apply Forall_flat_map. apply Forall_forall. exact IH.
Qed.


(** X18.  The text of every block that classification emits carries no
    whitespace at either end, list items with their bullet or number
    included. *)
Theorem block_texts_stripped (b : bool) (html : soup) :
  Forall (fun f => exists text st, f = Paragraph text st /\ Str.strip text = text)
         (html_to_flowables b html).
Proof.
  unfold html_to_flowables. apply Forall_flat_map. intros e _.
  pose proof (process_element_content e) as Hc.
  pose proof (process_element_stripped e) as Hs.
  induction Hc as [|f l Hf _ IH]; [constructor|].
  inversion Hs as [|? ? Hsf Hsl]; subst.
  constructor; [|apply IH; exact Hsl].
  destruct f as [text st| |]; try contradiction.
  exists text, st. split; [reflexivity | exact Hsf].
Qed.

(** X19.  The tree that is classified holds no script, style, button, form
    or nav element and no subscription widget, at any depth. *)
Theorem preprocess_removes_unwanted (b : bool) (html : soup) :
  Forall (fun d => name_in ["script"; "style"; "button"; "form"; "nav"] d = false)
         (descendants (preprocess b html)) /\
  Forall (fun d => div_class "subscription-widget-wrap" d = false)
         (descendants (preprocess b html)).
Proof.
  unfold preprocess. split.
  - apply remove_references_clean; [apply name_in_by_tag|].
    apply decompose_all_keeps_clean; [apply name_in_by_tag|].
    apply decompose_all_removes. apply name_in_by_tag.
  - apply remove_references_clean; [apply div_class_by_tag|].
    apply decompose_all_removes. apply div_class_by_tag.
Qed.

(** X20.  Preprocessing changes nothing in a tree that has none of the
    unwanted elements, no subscription widget and no heading that reads
    "references". *)
Theorem preprocess_clean_identity (b : bool) (html : soup) :
  Forall (fun d => name_in ["script"; "style"; "button"; "form"; "nav"] d = false)
         (descendants html) ->
  Forall (fun d => div_class "subscription-widget-wrap" d = false) (descendants html) ->
  Forall (fun d => is_references d = false) (descendants html) ->
  preprocess b html = html.
Proof.
  intros H1 H2 H3. unfold preprocess.
  rewrite (decompose_all_identity _ html H1), (decompose_all_identity _ html H2).
  unfold remove_references. rewrite remove_first_none; [reflexivity | | exact H3].
  apply Forall_forall. intros c _. apply remove_references_in_none.
Qed.

Lemma preprocess_clean_identity_witness :
  preprocess true real_page = real_page.
Proof.
  apply preprocess_clean_identity; repeat constructor.
Defined.



(** X23.  A tree in which no heading of level 1-3 reads "references" comes
    out of the References removal unchanged. *)
Theorem references_absent_unchanged (b : bool) (s : soup) :
  find_all is_references (descendants s) = [] ->
  remove_references b s = s.
Proof.
  intros H. apply remove_references_unchanged_iff with (b := b) in H.
  unfold remove_references. rewrite H. reflexivity.
Qed.

Lemma references_absent_unchanged_witness :
  remove_references true noisy_page = noisy_page.
Proof.
  apply references_absent_unchanged. reflexivity.
Defined.


End Preprocessing.

(** ** The story: [generate_newspaper_pdf] *)

Section Layout.
Import Bs4 ArticleFetcher PdfGenerator MakeNewspaper Spec.

Lemma add_articles_unfolded (b : bool) (lib : libraries) (articles : list Article) (i : nat)
      (story : list flowable) :
  add_articles b lib i articles story =
    story ++ flat_map (fun p => article_flowables b lib (fst p) (snd p))
                      (combine (seq i (List.length articles)) articles).
Proof.
  revert i story. induction articles as [|a articles IH]; intros i story; simpl.
  - rewrite app_nil_r. reflexivity.
  - rewrite IH, <- app_assoc. reflexivity.
Qed.

Lemma rules_app (t : nat) (l1 l2 : list flowable) :
  rules t (l1 ++ l2) = rules t l1 + rules t l2.
Proof. unfold rules. rewrite filter_app, length_app. reflexivity. Qed.

Lemma rules_content (t : nat) (l : list flowable) :
  Forall content_block l -> rules t l = 0.
Proof.
  unfold rules. induction 1 as [|f l Hf _ IH]; [reflexivity|].
  destruct f as [text st| |]; try contradiction. simpl. exact IH.
Qed.

Lemma story_metas_app (l1 l2 : list flowable) :
  story_metas (l1 ++ l2) = story_metas l1 ++ story_metas l2.
Proof. apply flat_map_app. Qed.

Lemma story_metas_content (l : list flowable) :
  Forall content_block l -> story_metas l = [].
Proof.
  induction 1 as [|f l Hf _ IH]; [reflexivity|].
  unfold story_metas in *. simpl. rewrite IH.
  destruct f as [text st| |]; try contradiction.
  destruct Hf as [_ Hst]. simpl in Hst.
  destruct Hst as [<- | [<- | [<- | [<- | []]]]]; reflexivity.
Qed.

Lemma body_style_content (l : list flowable) :
  Forall content_block l -> filter body_style l = l.
Proof.
  induction 1 as [|f l Hf _ IH]; [reflexivity|].
  destruct f as [text st| |]; try contradiction.
  destruct Hf as [_ Hst]. simpl in Hst.
  destruct Hst as [<- | [<- | [<- | [<- | []]]]]; simpl; rewrite IH; reflexivity.
Qed.

Lemma article_flowables_rules (b : bool) (lib : libraries) (i : nat) (a : Article) (t : nat) :
  rules t (article_flowables b lib i a) =
    if (0 <? i)%nat then (if Nat.eqb t 1 then 1 else 0) else 0.
Proof.
  unfold article_flowables. rewrite !rules_app.
  rewrite (rules_content t _ (html_to_flowables_content b (reparse lib (content_html a)))).
  destruct (0 <? i)%nat; [|reflexivity].
  destruct (Nat.eqb t 1) eqn:E.
  - apply Nat.eqb_eq in E. subst t. reflexivity.
  - destruct t as [|[|t]]; [reflexivity | discriminate E | reflexivity].
Qed.

Lemma add_articles_rules (b : bool) (lib : libraries) (t : nat) (articles : list Article) (i : nat)
      (story : list flowable) :
  1 <= i ->
  rules t (add_articles b lib i articles story) =
    rules t story + (if Nat.eqb t 1 then List.length articles else 0).
Proof.
  revert i story. induction articles as [|a articles IH]; intros i story Hi; simpl.
  - destruct (Nat.eqb t 1); lia.
  - rewrite IH by lia. rewrite rules_app, article_flowables_rules.
    assert (E : (0 <? i)%nat = true) by (apply Nat.ltb_lt; lia).
    rewrite E. destruct (Nat.eqb t 1); lia.
Qed.

Lemma article_flowables_metas (b : bool) (lib : libraries) (i : nat) (a : Article) :
  story_metas (article_flowables b lib i a) = [meta_text a].
Proof.
  unfold article_flowables. rewrite !story_metas_app.
  rewrite (story_metas_content _ (html_to_flowables_content b (reparse lib (content_html a)))).
  destruct (0 <? i)%nat; reflexivity.
Qed.

Lemma article_flowables_body (b : bool) (lib : libraries) (i : nat) (a : Article) :
  filter body_style (article_flowables b lib i a) = html_to_flowables b (reparse lib (content_html a)).
Proof.
  unfold article_flowables. rewrite !filter_app.
  rewrite (body_style_content _ (html_to_flowables_content b (reparse lib (content_html a)))).
  destruct (0 <? i)%nat; reflexivity.
Qed.

(** X24.  The story is the masthead (title, date, rule of thickness 2,
    spacer) followed by the flowables of the articles in order, each built
    from its index: the first article has no divider before it, every later
    one has. *)
Theorem story_layout (b : bool) (lib : libraries) (today : string) (articles : list Article) :
  generate_newspaper_pdf b lib today articles =
    [Paragraph "THE WEEKLY" NewspaperTitle; Paragraph today NewspaperDate;
     HRFlowable 2; Spacer 1 3] ++
    flat_map (fun p => article_flowables b lib (fst p) (snd p))
             (combine (seq 0 (List.length articles)) articles) /\
  (forall i a, 1 <= i ->
      firstn 3 (article_flowables b lib i a) = [Spacer 1 5; HRFlowable 1; Spacer 1 3]) /\
  (forall a,
      firstn 2 (article_flowables b lib 0 a) =
        [Paragraph (title a) ArticleTitle; Paragraph (meta_text a) ArticleMeta]).
Proof.
  split; [apply add_articles_unfolded|]. split.
  - intros i a Hi. unfold article_flowables.
    assert (E : (0 <? i)%nat = true) by (apply Nat.ltb_lt; lia).
    rewrite E. reflexivity.
  - intros a. reflexivity.
Qed.

Lemma story_layout_witness :
  firstn 3 (article_flowables true lenient_lib 2 (extract_substack real_url real_page)) =
    [Spacer 1 5; HRFlowable 1; Spacer 1 3].
Proof.
  apply (proj1 (proj2 (story_layout true lenient_lib "Monday, January 05, 2026" []))). lia.
Defined.

(** X25.  A story has exactly one rule of thickness 2, the one of the
    masthead, one rule of thickness 1 for every article after the first,
    and no other rule. *)
Theorem story_rules (b : bool) (lib : libraries) (today : string) (articles : list Article) :
  rules 2 (generate_newspaper_pdf b lib today articles) = 1 /\
  rules 1 (generate_newspaper_pdf b lib today articles) = pred (List.length articles) /\
  (forall t, t <> 1 -> t <> 2 ->
             rules t (generate_newspaper_pdf b lib today articles) = 0).
Proof.
  unfold generate_newspaper_pdf.
  assert (H : forall t,
             rules t (add_articles b lib 0 articles
                        [Paragraph "THE WEEKLY" NewspaperTitle;
                         Paragraph today NewspaperDate; HRFlowable 2; Spacer 1 3]) =
             (if Nat.eqb t 2 then 1 else 0) +
             (if Nat.eqb t 1 then pred (List.length articles) else 0)).
  { intros t. destruct articles as [|a articles]; cbn [add_articles].
    - destruct t as [|[|[|t]]]; reflexivity.
    - rewrite add_articles_rules by lia. rewrite rules_app, article_flowables_rules.
      destruct t as [|[|[|t]]]; cbn; lia. }
  split; [|split].
  - rewrite H. reflexivity.
  - rewrite H. reflexivity.
  - intros t H1 H2. rewrite H.
    apply Nat.eqb_neq in H1. apply Nat.eqb_neq in H2. rewrite H1, H2. reflexivity.
Qed.

Lemma story_rules_witness :
  rules 7 (generate_newspaper_pdf true lenient_lib "Monday, January 05, 2026"
             [extract_substack real_url real_page]) = 0.
Proof.
  apply (proj2 (proj2 (story_rules true lenient_lib "Monday, January 05, 2026"
                         [extract_substack real_url real_page]))); lia.
Defined.

(** X26.  The metadata lines of the story are those of the articles, in
    order: the author string, followed by " • " and the date when the date
    is not empty. *)
Theorem story_metadata_lines (b : bool) (lib : libraries) (today : string) (articles : list Article) :
  story_metas (generate_newspaper_pdf b lib today articles) = map meta_text articles /\
  (forall a, date a = "" -> meta_text a = author a) /\
  (forall a, date a <> "" -> meta_text a = (author a ++ " • " ++ date a)%string).
Proof.
  split; [|split].
  - unfold generate_newspaper_pdf. rewrite add_articles_unfolded, story_metas_app.
    simpl (story_metas [_; _; _; _]). simpl app.
    generalize 0. induction articles as [|a articles IH]; intros i; [reflexivity|].
    simpl. rewrite story_metas_app, article_flowables_metas, IH. reflexivity.
  - intros a H. unfold meta_text. rewrite H. reflexivity.
  - intros a H. unfold meta_text. apply nonempty_iff in H. rewrite H. reflexivity.
Qed.

Lemma story_metadata_lines_witness :
  meta_text (extract_substack real_url real_page) = "Written by Jane from The Weekly".
Proof.
  apply (proj1 (proj2 (story_metadata_lines true lenient_lib "Monday, January 05, 2026" []))).
  reflexivity.
Defined.

(** X27.  The body blocks of the story are the classified contents of the
    articles, article after article: nothing of the masthead, the titles
    or the dividers is in a body style, and no block is lost. *)
Theorem story_body_blocks (b : bool) (lib : libraries) (today : string) (articles : list Article) :
  filter body_style (generate_newspaper_pdf b lib today articles) =
    flat_map (fun a => html_to_flowables b (reparse lib (content_html a))) articles.
Proof.
  unfold generate_newspaper_pdf. rewrite add_articles_unfolded, filter_app.
  simpl (filter body_style [_; _; _; _]). simpl app.
  generalize 0. induction articles as [|a articles IH]; intros i; [reflexivity|].
  simpl. rewrite filter_app, article_flowables_body, IH. reflexivity.
Qed.

(** X28.  A document that is written goes to the output path given and
    holds at least one article and at most as many as there were URLs. *)
Theorem document_article_count (web : string -> option soup) (limit : nat)
        (b : bool) (lib : libraries) (today : string) (urls : list string) (output out : string)
        (story : list flowable) :
  main web limit b lib today urls output = Pdf out story ->
  out = output /\
  1 <= List.length (story_titles story) <= List.length urls.
Proof.
  intros H. apply main_pdf_story in H as [-> [Hne ->]]. split; [reflexivity|].
  unfold generate_newspaper_pdf. rewrite story_titles_add_articles.
  simpl. rewrite length_map.
  assert (L : List.length (successes web limit urls) <= List.length urls).
  { unfold successes. clear Hne. induction urls as [|u urls IH]; [reflexivity|].
    simpl. rewrite length_app.
    destruct (snd (fetch_article web limit u)); simpl; lia. }
  destruct (successes web limit urls) as [|a l]; [contradiction Hne; reflexivity|].
  simpl in *. lia.
Qed.

Lemma document_article_count_witness :
  "out.pdf" = "out.pdf" /\
  1 <= List.length (story_titles
                      (generate_newspaper_pdf true lenient_lib "Monday, January 05, 2026"
                         [extract_substack real_url real_page])) <= 2.
Proof.
  apply (document_article_count chain_web 10 true lenient_lib "Monday, January 05, 2026"
           ["https://bad.example/"; reader1] "out.pdf" "out.pdf").
  reflexivity.
Defined.

End Layout.

(** ** The author link *)

Section AuthorLink.
Import Bs4 ArticleFetcher Spec.

Lemma first_link_text_split (links : list node) :
  match first_link_text links with
  | Some t =>
      exists pre link post,
        links = pre ++ link :: post /\
        Forall (fun l => get_text_strip l = "") pre /\
        get_text_strip link = t /\ t <> ""
  | None => Forall (fun l => get_text_strip l = "") links
  end.
Proof.
  induction links as [|link rest IH]; simpl; [constructor|].
  destruct (Str.nonempty (get_text_strip link)) eqn:E.
  - exists [], link, rest. split; [reflexivity|]. split; [constructor|].
    split; [reflexivity | apply nonempty_iff; exact E].
  - apply nonempty_false_iff in E.
    destruct (first_link_text rest) as [t|].
    + destruct IH as [pre [l [post [-> [Hpre [Ht Hne]]]]]].
      exists (link :: pre), l, post. split; [reflexivity|].
      split; [constructor; assumption | auto].
    + constructor; assumption.
Qed.

(** X29.  The author resolved by the site-specific strategy is the stripped
    text of the first profile link, in document order, whose text is not
    empty; profile links without text before it (an avatar image, say) are
    passed over, and no author is resolved exactly when every profile link
    is without text. *)
Theorem substack_author_first_link (s : soup) :
  match substack_author s with
  | Some t =>
      exists pre link post,
        find_all profile_link (descendants s) = pre ++ link :: post /\
        Forall (fun l => get_text_strip l = "") pre /\
        get_text_strip link = t /\ t <> ""
  | None =>
      Forall (fun l => get_text_strip l = "") (find_all profile_link (descendants s))
  end.
Proof.
  unfold substack_author.
  exact (first_link_text_split (find_all profile_link (descendants s))).
Qed.

End AuthorLink.
